(** * NeuroGuard / HMS front end: role gate, session, record cache

    A shallow embedding of the client code of the repository:
    - the role-to-permission dictionary of the HMS pages
      ([frontend/script.js] and its localStorage-only sibling),
    - the React session provider ([context/AuthContext.tsx]),
    - the API client ([frontend/services/api.ts]),
    - the dashboard page and the patient form
      ([pages/Dashboard.tsx], [components/PatientModal.tsx]).

    JavaScript values are modelled where the code depends on them:
    [null]/[undefined] as [None], truthiness as a boolean function,
    object literals as finite maps with the members they inherit from
    [Object.prototype] written out. *)

From Stdlib Require Import QArith Qcanon Qround Ascii String.
From stdpp Require Import base option list strings gmap numbers pretty sorting.

Set Warnings "-register-all".
Close Scope Q_scope.
Open Scope string_scope.

(** ** JavaScript helpers *)

Module Js.

(** [!!s] for a string or null: null and the empty string are falsy. *)
Definition truthy_string (s : option string) : bool :=
  match s with
  | None => false
  | Some s => negb (String.eqb s "")
  end.

(** [!!b] for a boolean or undefined. *)
Definition truthy_flag (b : option bool) : bool := default false b.

(** [String(v)] for a string or null, as in a template literal. *)
Definition ToString (v : option string) : string := default "null" v.

(** The key a string or null denotes in [object[key]]. *)
Definition ToPropertyKey (k : option string) : string := ToString k.

(** The members every object literal inherits from [Object.prototype]
    (ECMAScript 20.1.3 and annex B.2.2). Each of them is a function,
    except [__proto__], an accessor that yields the prototype object. *)
Definition Object_prototype_names : list string :=
  [ "constructor"; "hasOwnProperty"; "isPrototypeOf";
    "propertyIsEnumerable"; "toLocaleString"; "toString"; "valueOf";
    "__proto__"; "__defineGetter__"; "__defineSetter__";
    "__lookupGetter__"; "__lookupSetter__" ].

Definition inherited (k : string) : bool :=
  bool_decide (k ∈ Object_prototype_names).

(** *** Numbers

    A JavaScript number is a double. A finite value is kept as the
    rational it denotes, the results of the arithmetic being rounded to
    the nearest double ([round]); the sign of zero is not kept. [NaN] and
    the two infinities are kept, since they are what a division by zero
    and an overflow produce. *)
Inductive number :=
  | Finite (q : Qc)
  | NaN
  | Infinity (negative : bool).

(** The double of an integer that a double represents exactly, as the
    literals and the lengths of the code are. *)
Definition of_Z (z : Z) : number := Finite (Qc_of_Z z).
Definition of_nat (n : nat) : number := of_Z (Z.of_nat n).

Definition negative (q : Qc) : bool := bool_decide (q < 0)%Qc.

(** [m * 2^e] *)
Definition dyadic (m e : Z) : Qc :=
  Q2Qc (Qmake (m * 2 ^ Z.max 0 e) (Z.to_pos (2 ^ Z.max 0 (- e)))).

(** The double nearest to a rational (IEEE 754 binary64, ties to the
    even significand): 53 significant bits, the least exponent of a
    unit in the last place being -1074; a magnitude that rounds to
    [2^1024] overflows. With [a / d] the magnitude, [e] is the integer
    part of its binary logarithm and [2^exp] the unit in the last
    place. *)
Definition round (q : Qc) : number :=
  let n := Qnum q in
  let d := Z.pos (Qden q) in
  if (n =? 0)%Z then Finite (Qc_of_Z 0)
  else
    let a := Z.abs n in
    let e0 := (Z.log2 a - Z.log2 d)%Z in
    let e := if (a * 2 ^ Z.max 0 (- e0) <? d * 2 ^ Z.max 0 e0)%Z
             then (e0 - 1)%Z else e0 in
    let exp := Z.max (e - 52) (-1074) in
    let num := (a * 2 ^ Z.max 0 (- exp))%Z in
    let den := (d * 2 ^ Z.max 0 exp)%Z in
    let m := (num / den)%Z in
    let r := (num mod den)%Z in
    let m' := if (den <? 2 * r)%Z || ((den =? 2 * r)%Z && Z.odd m)
              then (m + 1)%Z else m in
    if (0 <=? exp)%Z && (2 ^ 1024 <=? m' * 2 ^ exp)%Z
    then Infinity (n <? 0)%Z
    else Finite (dyadic (Z.sgn n * m') exp).

(** Whether two numbers are the same value. *)
Definition same (a b : number) : bool :=
  match a, b with
  | Finite x, Finite y => bool_decide (x = y)
  | NaN, NaN => true
  | Infinity s, Infinity t => Bool.eqb s t
  | _, _ => false
  end.

(** [a + b] *)
Definition add (a b : number) : number :=
  match a, b with
  | NaN, _ | _, NaN => NaN
  | Infinity s, Infinity t => if Bool.eqb s t then Infinity s else NaN
  | Infinity s, Finite _ => Infinity s
  | Finite _, Infinity t => Infinity t
  | Finite x, Finite y => round (x + y)%Qc
  end.

(** [a / b]: [0 / 0] is [NaN], any other finite value over zero is
    infinite. *)
Definition div (a b : number) : number :=
  match a, b with
  | NaN, _ | _, NaN => NaN
  | Infinity _, Infinity _ => NaN
  | Infinity s, Finite y => Infinity (xorb s (negative y))
  | Finite _, Infinity _ => Finite 0%Qc
  | Finite x, Finite y =>
      if bool_decide (y = 0%Qc)
      then (if bool_decide (x = 0%Qc) then NaN else Infinity (negative x))
      else round (x / y)%Qc
  end.

(** [!!n]: zero and [NaN] are falsy. *)
Definition truthy_number (n : option number) : bool :=
  match n with
  | Some (Finite q) => negb (bool_decide (q = 0%Qc))
  | Some NaN => false
  | Some (Infinity _) => true
  | None => false
  end.

(** [x === k] for a field that is a number or undefined and an integer
    literal [k]. *)
Definition strict_eq (x : option number) (k : Z) : bool :=
  match x with
  | Some (Finite q) => bool_decide (q = Qc_of_Z k)
  | _ => false
  end.

(** [n || 1] for an array length. *)
Definition or_one (n : nat) : nat := if Nat.eqb n 0 then 1 else n.

(** [x.toFixed(1)], for magnitudes below 1e21: the magnitude is
    rounded to the nearest tenth, the larger one on a tie. *)
Definition toFixed1 (x : number) : string :=
  match x with
  | NaN => "NaN"
  | Infinity false => "Infinity"
  | Infinity true => "-Infinity"
  | Finite q =>
      let m := if negative q then (- q)%Qc else q in
      let n := Qfloor (m * Qc_of_Z 10 + Q2Qc (1 # 2))%Qc in
      (if negative q then "-" else "")
        +:+ pretty (n / 10)%Z +:+ "." +:+ pretty (n mod 10)%Z
  end.

(** *** JSON values *)
Inductive json :=
  | JNull
  | JBool (b : bool)
  | JNum (n : number)
  | JStr (s : string)
  | JArr (items : list json)
  | JObj (members : list (string * json)).

(** [!!v] *)
Definition truthy (v : json) : bool :=
  match v with
  | JNull => false
  | JBool b => b
  | JNum n => truthy_number (Some n)
  | JStr s => negb (String.eqb s "")
  | JArr _ | JObj _ => true
  end.

(** *** Strings

    A string is kept as the bytes of its UTF-8 text, an ASCII character
    being one byte below 128.

    [String.prototype.toLowerCase] follows the Unicode case mappings,
    which are not a map of single characters (the lower case of a
    capital sigma depends on what surrounds it). It is a function of the
    host, of which the development fixes what it does on ASCII text:
    the letters [A]-[Z] become [a]-[z], every other character stays. *)
Definition lower (c : Ascii.ascii) : Ascii.ascii :=
  let n := Ascii.nat_of_ascii c in
  if (65 <=? n)%nat && (n <=? 90)%nat then Ascii.ascii_of_nat (n + 32) else c.

Fixpoint lower_ascii (s : string) : string :=
  match s with
  | EmptyString => EmptyString
  | String c s' => String (lower c) (lower_ascii s')
  end.

Fixpoint ascii_only (s : string) : bool :=
  match s with
  | EmptyString => true
  | String c s' => (Ascii.nat_of_ascii c <? 128)%nat && ascii_only s'
  end.

Class Unicode := mkUnicode
  { toLowerCase : string → string;
    toLowerCase_ascii (s : string) :
      ascii_only s = true → toLowerCase s = lower_ascii s }.

(** A host that knows ASCII letters only; it agrees with every host on
    ASCII text, which is what the examples are written in. *)
Definition ascii_host : Unicode :=
  {| toLowerCase := lower_ascii; toLowerCase_ascii := λ s _, eq_refl |}.

(** [hay.includes(needle)] *)
Fixpoint includes (hay needle : string) : bool :=
  if String.prefix needle hay then true
  else match hay with
       | EmptyString => false
       | String _ hay' => includes hay' needle
       end.

(** [String(n)] for an integer or undefined. *)
Definition show (n : option Z) : string :=
  match n with
  | Some z => pretty z
  | None => "undefined"
  end.

(** *** [Number::toString]

    The digits of a positive double [q] are those of the integer [s]
    with the fewest digits [k] for which [s * 10^(n-k)] rounds to [q],
    the nearest to [q] if two have that many, [n] being the place of the
    decimal point. *)

(** [q * 10^n] *)
Definition scale10 (q : Qc) (n : Z) : Qc :=
  if (0 <=? n)%Z then (q * Qc_of_Z (10 ^ n))%Qc else (q / Qc_of_Z (10 ^ (- n)))%Qc.

(** The least [n] from [n] upward with [q < 10^n]. *)
Fixpoint magnitude10 (fuel : nat) (n : Z) (q : Qc) : Z :=
  match fuel with
  | O => n
  | S fuel' =>
      if bool_decide (q < scale10 (Qc_of_Z 1) n)%Qc then n
      else magnitude10 fuel' (n + 1)%Z q
  end.

(** The integer [s] and its number of digits, searched from [k]
    upward; 17 digits tell any two doubles apart. *)
Fixpoint shortest (fuel : nat) (k n : Z) (q : Qc) : Z * Z :=
  let t := scale10 q (k - n) in
  let lo := Qfloor t in
  let hi := (lo + 1)%Z in
  let denotes c := same (round (scale10 (Qc_of_Z c) (n - k))) (Finite q) in
  let up := bool_decide (Qc_of_Z hi - t < t - Qc_of_Z lo)%Qc
            || (bool_decide (Qc_of_Z hi - t = t - Qc_of_Z lo)%Qc && Z.even hi) in
  match fuel with
  | O => (lo, k)
  | S fuel' =>
      if denotes lo && denotes hi then (if up then hi else lo, k)
      else if denotes lo then (lo, k)
      else if denotes hi then (hi, k)
      else shortest fuel' (k + 1)%Z n q
  end.

Definition zeros (n : Z) : string :=
  String.string_of_list_ascii (replicate (Z.to_nat n) "0"%char).

Definition take_string (n : Z) (s : string) : string :=
  String.string_of_list_ascii (take (Z.to_nat n) (String.list_ascii_of_string s)).

Definition drop_string (n : Z) (s : string) : string :=
  String.string_of_list_ascii (drop (Z.to_nat n) (String.list_ascii_of_string s)).

(** The numeral of a positive double whose digits are those of [s],
    [k] of them, with the decimal point after [n] places. *)
Definition numeral (s k n : Z) : string :=
  let ds := pretty s in
  if (k <=? n)%Z && (n <=? 21)%Z then ds +:+ zeros (n - k)
  else if (0 <? n)%Z && (n <=? 21)%Z then take_string n ds +:+ "." +:+ drop_string n ds
  else if (-6 <? n)%Z && (n <=? 0)%Z then "0." +:+ zeros (- n) +:+ ds
  else
    let e := (n - 1)%Z in
    let exponent := (if (e <? 0)%Z then "e-" else "e+") +:+ pretty (Z.abs e) in
    if (k =? 1)%Z then ds +:+ exponent
    else take_string 1 ds +:+ "." +:+ drop_string 1 ds +:+ exponent.

(** [String(x)] for a number. An integer of magnitude at most [2^53]
    is a double that no shorter numeral denotes, so its digits are its
    decimal numeral. *)
Definition Number_toString (x : number) : string :=
  match x with
  | NaN => "NaN"
  | Infinity false => "Infinity"
  | Infinity true => "-Infinity"
  | Finite q =>
      if bool_decide (q = 0%Qc) then "0"
      else
        let m := if negative q then (- q)%Qc else q in
        (if negative q then "-" else "")
          +:+ if (Qden m =? 1)%positive && (Qnum m <=? 2 ^ 53)%Z
              then pretty (Qnum m)
              else
                let n := magnitude10 640 (-324) m in
                let '(s, k) := shortest 20 1 n m in
                if (s =? 10 ^ k)%Z then numeral 1 1 (n + 1) else numeral s k n
  end.

End Js.

(** ** The HMS permission dictionary ([script.js] l.10-17) *)

Module Hms.

Record Perms := mkPerms
  { canView : bool; canAdd : bool; canEdit : bool; canDelete : bool }.

Definition administrator_row : Perms := mkPerms true true true true.
Definition doctor_row : Perms := mkPerms true true false false.
Definition viewer_row : Perms := mkPerms true false false false.

(** The own properties of the object literal [permissions]. *)
Definition permissions : gmap string Perms :=
  <["administrator" := administrator_row]>
    (<["doctor" := doctor_row]>
      (<["viewer" := viewer_row]> ∅)).

(** What a property read on [permissions] can yield: one of its rows,
    or a member inherited from [Object.prototype]. *)
Inductive entry :=
  | Row (p : Perms)
  | Inherited (name : string).

(** [permissions[k]]: own properties first, then the prototype;
    [None] is [undefined]. *)
Definition Get (k : string) : option entry :=
  match permissions !! k with
  | Some p => Some (Row p)
  | None => if Js.inherited k then Some (Inherited k) else None
  end.

(** [permissions[userRole] || permissions.viewer]. Rows and inherited
    members are objects or functions, hence truthy; only [undefined]
    falls through to the right operand. *)
Definition getCurrentPermissions (userRole : option string) : option entry :=
  match Get (Js.ToPropertyKey userRole) with
  | Some e => Some e
  | None => Get "viewer"
  end.

(** [userPerms.canX]: a row has the flag, an inherited member has no
    such property ([undefined]). Reading a property of [undefined]
    itself would throw; [getCurrentPermissions] never returns it. *)
Definition flag (f : Perms → bool) (userPerms : option entry) : option bool :=
  match userPerms with
  | Some (Row p) => Some (f p)
  | Some (Inherited _) => None
  | None => None
  end.

(** The truth value the [if] statements of the handlers see. *)
Definition allows (f : Perms → bool) (userRole : option string) : bool :=
  Js.truthy_flag (flag f (getCurrentPermissions userRole)).

End Hms.

(** ** The API client ([services/api.ts]) *)

Module Api.

(** [interface User] *)
Record User := mkUser
  { id : Z; username : string; email : string; role : string }.

(** [interface AuthResponse] *)
Record AuthResponse := mkAuthResponse { token : string; user : User }.

(** [interface Patient]. The optional members and the ones the page
    reads through [?.] are options, [None] standing for [undefined]
    (and for [null], which every expression below treats alike; a
    [null] identifier is not modelled). *)
Record Patient := mkPatient
  { patient_id : option Z;
    name : option string;
    age : Js.number;
    gender : option string;
    hypertension : Js.number;
    heart_disease : Js.number;
    ever_married : string;
    work_type : string;
    residence_type : string;
    avg_glucose_level : Js.number;
    bmi : Js.number;
    smoking_status : string;
    stroke_prediction : option Js.number;
    stroke : option Js.number }.

Inductive Method := GET | POST | PUT | DELETE.

(** A call of [fetch]: method, URL, [Authorization] header and the
    object serialized into the body. *)
Record Request := mkRequest
  { method : Method;
    url : string;
    authorization : option string;
    body : option (gmap string Js.json) }.

(** How a [fetch] ends: the promise rejects, or a response arrives
    with [ok] false (carrying [err.error], if any) or [ok] true
    (carrying the parsed body; [None] when [res.json()] rejects). *)
Inductive FetchResult (A : Type) :=
  | NetworkFailure
  | Rejected (error : option string)
  | Accepted (payload : option A).
Arguments NetworkFailure {A}.
Arguments Rejected {A} error.
Arguments Accepted {A} payload.

Inductive Exception :=
  | FetchTypeError
  | JsonSyntaxError
  | NullTypeError
  | Error (message : string).

Inductive Result (A : Type) :=
  | Returned (a : A)
  | Thrown (e : Exception).
Arguments Returned {A} a.
Arguments Thrown {A} e.

Definition PATIENT_API_URL : string := "http://localhost:5000/api".

(** [err.error || fallback] *)
Definition error_or (error : option string) (fallback : string) : string :=
  if Js.truthy_string error then default fallback error else fallback.

(** The common tail of the request functions:
    [if (!res.ok) throw new Error(err.error || fallback); return res.json();] *)
Definition settle {A} (fallback : string) (r : FetchResult A) : Result A :=
  match r with
  | NetworkFailure => Thrown FetchTypeError
  | Rejected error => Thrown (Error (error_or error fallback))
  | Accepted None => Thrown JsonSyntaxError
  | Accepted (Some a) => Returned a
  end.

Definition bearer (token : option string) : option string :=
  Some ("Bearer " +:+ Js.ToString token).

(** [fetchPatients(token)]: the body of the answer is an array of
    records or [null]. Before it returns, the function logs
    [data.length]; on [null] this read throws a [TypeError]. *)
Definition fetchPatients (token : option string)
    (r : FetchResult (option (list Patient)))
    : list Request * Result (option (list Patient)) :=
  if negb (Js.truthy_string token)
  then ([], Thrown (Error "No token provided"))
  else ([mkRequest GET (PATIENT_API_URL +:+ "/patients/") (bearer token) None],
        match settle "Failed to fetch patients" r with
        | Returned (Some data) => Returned (Some data)
        | Returned None => Thrown NullTypeError
        | Thrown e => Thrown e
        end).

(** [addPatient(patientData, token)] *)
Definition addPatient (patientData : gmap string Js.json) (token : option string)
    (r : FetchResult Patient) : list Request * Result Patient :=
  ([mkRequest POST (PATIENT_API_URL +:+ "/patients/") (bearer token)
      (Some patientData)],
   settle "Failed to add patient" r).

(** [updatePatient(id, updates, token)] *)
Definition updatePatient (id : option Z) (updates : gmap string Js.json)
    (token : option string) (r : FetchResult Patient)
    : list Request * Result Patient :=
  ([mkRequest PUT (PATIENT_API_URL +:+ "/patients/" +:+ Js.show id) (bearer token)
      (Some updates)],
   settle "Failed to update patient" r).

(** [deletePatient(id, token)]: the body of a successful answer is
    not read. *)
Definition deletePatient (id : option Z) (token : option string)
    (r : FetchResult unit) : list Request * Result bool :=
  ([mkRequest DELETE (PATIENT_API_URL +:+ "/patients/" +:+ Js.show id) (bearer token)
      None],
   match r with
   | NetworkFailure => Thrown FetchTypeError
   | Rejected error => Thrown (Error (error_or error "Failed to delete patient"))
   | Accepted _ => Returned true
   end).

(** A request that only reads. *)
Definition reads (q : Request) : Prop := method q = GET.

(** A request whose body, if it has one, has no member [id]. *)
Definition carries_no_id (q : Request) : Prop :=
  ∀ b, body q = Some b → b !! "id" = None.

End Api.

(** ** The dashboard page ([pages/Dashboard.tsx]) *)

Module Dashboard.

Import Api.

(** The [useState] cells of the component. *)
Record State := mkState
  { patients : list Patient;
    isLoading : bool;
    searchTerm : string;
    isModalOpen : bool;
    editingPatient : option Patient;
    error : string }.

Definition initial : State := mkState [] true "" false None "".

Definition setPatients (v : list Patient) (s : State) : State :=
  mkState v (isLoading s) (searchTerm s) (isModalOpen s) (editingPatient s) (error s).
Definition setIsLoading (v : bool) (s : State) : State :=
  mkState (patients s) v (searchTerm s) (isModalOpen s) (editingPatient s) (error s).
Definition setSearchTerm (v : string) (s : State) : State :=
  mkState (patients s) (isLoading s) v (isModalOpen s) (editingPatient s) (error s).
Definition setIsModalOpen (v : bool) (s : State) : State :=
  mkState (patients s) (isLoading s) (searchTerm s) v (editingPatient s) (error s).
Definition setEditingPatient (v : option Patient) (s : State) : State :=
  mkState (patients s) (isLoading s) (searchTerm s) (isModalOpen s) v (error s).
Definition setError (v : string) (s : State) : State :=
  mkState (patients s) (isLoading s) (searchTerm s) (isModalOpen s) (editingPatient s) v.

(** [const canModify = user?.role === 'doctor';] *)
Definition canModify (user : option User) : bool :=
  match user with
  | Some u => String.eqb (role u) "doctor"
  | None => false
  end.


(** [fetchPatients]: the new state and the requests sent. *)
Definition fetchPatients (token : option string)
    (r : FetchResult (option (list Patient))) (s : State)
    : State * list Request :=
  if negb (Js.truthy_string token)
  then (setIsLoading false (setError "No authentication token found" s), [])
  else
    let s1 := setError "" (setIsLoading true s) in
    let '(sent, outcome) := Api.fetchPatients token r in
    let s2 :=
      match outcome with
      | Returned (Some data) => setPatients data s1
      | Returned None => s1
      | Thrown _ =>
          setError "Could not connect to the server. Is the Flask backend running?" s1
      end in
    (setIsLoading false s2, sent).

(** [handleDelete(id)]: [confirmed] is the answer to [window.confirm];
    [alerted] tells whether the failure alert was shown. *)
Definition handleDelete (token : option string) (id : option Z) (confirmed : bool)
    (r : FetchResult unit) (refetch : FetchResult (option (list Patient)))
    (s : State) : State * list Request * bool :=
  if negb (Js.truthy_string token) then (s, [], false)
  else if confirmed then
    let '(sent, outcome) := Api.deletePatient id token r in
    match outcome with
    | Returned _ =>
        let '(s', sent') := fetchPatients token refetch s in
        (s', (sent ++ sent')%list, false)
    | Thrown _ => (s, sent, true)
    end
  else (s, [], false).

Definition handleEdit (patient : Patient) (s : State) : State :=
  setIsModalOpen true (setEditingPatient (Some patient) s).

Definition handleAdd (s : State) : State :=
  setIsModalOpen true (setEditingPatient None s).

(** [editingPatient && editingPatient.id !== undefined] *)
Definition isUpdate (s : State) : option Z :=
  editingPatient s ≫= patient_id.

(** [handleModalSubmit(data)]: the third component is the exception
    propagated to the modal, if any. *)
Definition handleModalSubmit (token : option string) (data : gmap string Js.json)
    (r : FetchResult Patient) (refetch : FetchResult (option (list Patient)))
    (s : State) : State * list Request * option Exception :=
  if negb (Js.truthy_string token) then (s, [], None)
  else
    let '(sent, outcome) :=
      match isUpdate s with
      | Some id => Api.updatePatient (Some id) data token r
      | None => Api.addPatient data token r
      end in
    match outcome with
    | Returned _ =>
        let '(s', sent') := fetchPatients token refetch s in
        (s', (sent ++ sent')%list, None)
    | Thrown e => (s, sent, Some e)
    end.

(** The predicate of [filteredPatients]:
    [p.name?.toLowerCase().includes(searchTerm.toLowerCase()) ||
     p.gender?.toLowerCase().includes(searchTerm.toLowerCase()) ||
     p.id?.toString().includes(searchTerm)] *)
Definition matches {host : Js.Unicode} (searchTerm : string) (p : Patient) : bool :=
  match name p with
  | Some n => Js.includes (Js.toLowerCase n) (Js.toLowerCase searchTerm)
  | None => false
  end
  || match gender p with
     | Some g => Js.includes (Js.toLowerCase g) (Js.toLowerCase searchTerm)
     | None => false
     end
  || match patient_id p with
     | Some i => Js.includes (pretty i) searchTerm
     | None => false
     end.


(** *** The search, on the heap

    The records are objects and the arrays hold references to them;
    the state cell [patients] holds a reference to the cached array. A
    computation takes the heap and gives it back, with its value or
    with [None] when it throws. *)
Definition loc := positive.

Record Heap := mkHeap
  { objects : gmap loc Patient;
    arrays : gmap loc (list loc) }.

Definition M (A : Type) : Type := Heap → option A * Heap.



(** [p.member]; reading a member of what is no object throws. *)
Definition Get {A} (p : loc) (member : Patient → A) : M A :=
  λ h, (member <$> objects h !! p, h).









(** *** Statistics *)

Definition count (f : Patient → bool) (l : list Patient) : nat :=
  length (List.filter f l).

(** [p.stroke === 1 || p.stroke_prediction === 1] *)
Definition in_stroke_slice (p : Patient) : bool :=
  Js.strict_eq (stroke p) 1 || Js.strict_eq (stroke_prediction p) 1.

(** [p.stroke === 0 || p.stroke_prediction === 0 || !p.stroke_prediction] *)
Definition in_no_stroke_slice (p : Patient) : bool :=
  Js.strict_eq (stroke p) 0 || Js.strict_eq (stroke_prediction p) 0
  || negb (Js.truthy_number (stroke_prediction p)).

(** [strokeStats]: the values of the 'Stroke' and 'No Stroke' slices. *)
Definition strokeStats (l : list Patient) : nat * nat :=
  (count in_stroke_slice l, count in_no_stroke_slice l).

(** [genderStats]: the values of the 'Male' and 'Female' bars. *)
Definition genderStats (l : list Patient) : nat * nat :=
  (count (λ p, bool_decide (gender p = Some "Male")) l,
   count (λ p, bool_decide (gender p = Some "Female")) l).

(** [patients.reduce((acc, p) => acc + f(p), 0) / (patients.length || 1)] *)
Definition mean (f : Patient → Js.number) (l : list Patient) : Js.number :=
  Js.div (fold_left (λ acc p, Js.add acc (f p)) l (Js.of_Z 0))
         (Js.of_nat (Js.or_one (length l))).

(** The four header cards. *)
Record Header := mkHeader
  { totalPatients : nat;
    avgGlucoseLevel : Js.number;
    avgAge : Js.number;
    strokeRiskObserved : nat }.

Definition header (l : list Patient) : Header :=
  mkHeader (length l) (mean avg_glucose_level l) (mean age l)
           (count (λ p, Js.strict_eq (stroke p) 1) l).

End Dashboard.

(** ** The patient form ([components/PatientModal.tsx]) *)

Module PatientModal.

Import Api.

(** The object a cached record is at run time: one member per field
    that is present. *)
Definition Patient_object (p : Patient) : gmap string Js.json :=
  let opt {A} (k : string) (f : A → Js.json) (x : option A) :=
    match x with Some a => [(k, f a)] | None => [] end in
  list_to_map
    (opt "id" (λ i, Js.JNum (Js.of_Z i)) (patient_id p)
     ++ opt "name" Js.JStr (name p)
     ++ [("age", Js.JNum (age p))]
     ++ opt "gender" Js.JStr (gender p)
     ++ [("hypertension", Js.JNum (hypertension p));
         ("heart_disease", Js.JNum (heart_disease p));
         ("ever_married", Js.JStr (ever_married p));
         ("work_type", Js.JStr (work_type p));
         ("residence_type", Js.JStr (residence_type p));
         ("avg_glucose_level", Js.JNum (avg_glucose_level p));
         ("bmi", Js.JNum (bmi p));
         ("smoking_status", Js.JStr (smoking_status p))]
     ++ opt "stroke_prediction" Js.JNum (stroke_prediction p)
     ++ opt "stroke" Js.JNum (stroke p))%list.

Definition INITIAL_FORM : gmap string Js.json :=
  list_to_map
    [("name", Js.JStr "");
     ("gender", Js.JStr "Male");
     ("age", Js.JNum (Js.of_Z 50));
     ("hypertension", Js.JNum (Js.of_Z 0));
     ("heart_disease", Js.JNum (Js.of_Z 0));
     ("ever_married", Js.JStr "Yes");
     ("work_type", Js.JStr "Private");
     ("residence_type", Js.JStr "Urban");
     ("avg_glucose_level", Js.JNum (Js.of_Z 100));
     ("bmi", Js.JNum (Js.of_Z 25));
     ("smoking_status", Js.JStr "never smoked");
     ("stroke", Js.JNum (Js.of_Z 0))].

(** The effect on [[initialData, isOpen]]:
    [if (initialData) { const { id, ...rest } = initialData; setFormData(rest); }
     else setFormData(INITIAL_FORM);] *)
Definition resetForm (initialData : option Patient) : gmap string Js.json :=
  match initialData with
  | Some p => delete "id" (Patient_object p)
  | None => INITIAL_FORM
  end.

(** The fields the inputs of the form write through [handleChange]. *)
Inductive Field :=
  | f_name | f_age | f_gender | f_work_type | f_residence_type
  | f_ever_married | f_bmi | f_avg_glucose_level | f_smoking_status
  | f_hypertension | f_heart_disease | f_stroke.

Definition field_name (f : Field) : string :=
  match f with
  | f_name => "name" | f_age => "age" | f_gender => "gender"
  | f_work_type => "work_type" | f_residence_type => "residence_type"
  | f_ever_married => "ever_married" | f_bmi => "bmi"
  | f_avg_glucose_level => "avg_glucose_level"
  | f_smoking_status => "smoking_status"
  | f_hypertension => "hypertension" | f_heart_disease => "heart_disease"
  | f_stroke => "stroke"
  end.

(** [setFormData(prev => ({ ...prev, [field]: value }))] *)
Definition handleChange (field : Field) (value : Js.json)
    (formData : gmap string Js.json) : gmap string Js.json :=
  <[field_name field := value]> formData.

End PatientModal.

(** ** The page as a transition system

    One step per user action; a handler runs to completion within its
    step, the answers of the store being parameters of the step. An
    action is possible only when the control that triggers it is
    rendered. The label of a step is the list of requests it sends. *)

Module Ui.

Import Api.

Record State := mkState
  { page : Dashboard.State;
    formData : gmap string Js.json;
    modalError : string }.

Definition initial : State :=
  mkState Dashboard.initial PatientModal.INITIAL_FORM "".

(** Re-run of the form's effect after [isModalOpen] or
    [editingPatient] changed. *)
Definition sync (d : Dashboard.State) : State :=
  mkState d (PatientModal.resetForm (Dashboard.editingPatient d)) "".

Section Steps.

Context {host : Js.Unicode}.

(** The session the page reads through [useAuth()]. *)
Variable user : option User.
Variable token : option string.

(** The table rows exist when loading is over. *)
Definition row_rendered (p : Patient) (s : State) : Prop :=
  Dashboard.isLoading (page s) = false
  ∧ p ∈ List.filter (Dashboard.matches (Dashboard.searchTerm (page s)))
                    (Dashboard.patients (page s)).

Inductive step : State → list Request → State → Prop :=
  | step_refresh s r d sent :
      (** [useEffect(() => { fetchPatients(); }, [])] *)
      Dashboard.fetchPatients token r (page s) = (d, sent) →
      step s sent (mkState d (formData s) (modalError s))
  | step_search s q :
      step s [] (mkState (Dashboard.setSearchTerm q (page s))
                         (formData s) (modalError s))
  | step_add s :
      Dashboard.canModify user = true →
      step s [] (sync (Dashboard.handleAdd (page s)))
  | step_edit s p :
      Dashboard.canModify user = true →
      row_rendered p s →
      step s [] (sync (Dashboard.handleEdit p (page s)))
  | step_delete s p confirmed r refetch d sent alerted :
      Dashboard.canModify user = true →
      row_rendered p s →
      Dashboard.handleDelete token (patient_id p) confirmed r refetch (page s)
        = (d, sent, alerted) →
      step s sent (mkState d (formData s) (modalError s))
  | step_change s field value :
      Dashboard.isModalOpen (page s) = true →
      step s [] (mkState (page s)
                         (PatientModal.handleChange field value (formData s))
                         (modalError s))
  | step_submit s r refetch d sent thrown :
      (** [handleSubmit]: [await onSubmit(formData); onClose();] or,
          on an exception, [setError(...)] *)
      Dashboard.isModalOpen (page s) = true →
      Dashboard.handleModalSubmit token (formData s) r refetch (page s)
        = (d, sent, thrown) →
      step s sent
        match thrown with
        | None => sync (Dashboard.setIsModalOpen false d)
        | Some _ =>
            mkState d (formData s) "Failed to save patient. Please check inputs."
        end
  | step_close s :
      Dashboard.isModalOpen (page s) = true →
      step s [] (sync (Dashboard.setIsModalOpen false (page s))).

(** Runs, with the requests sent along the way. *)
Inductive run : State → list Request → State → Prop :=
  | run_nil s : run s [] s
  | run_step s sent s' sent' s'' :
      run s sent s' → step s' sent' s'' → run s (sent ++ sent')%list s''.

End Steps.

End Ui.

(** ** The session provider ([context/AuthContext.tsx]) *)

Module AuthContext.

Import Api.

(** The text kept under the key ['user']. The provider only tests it
    for emptiness and hands it to [JSON.parse], so a text is
    represented by what these two see: the empty string, the JSON text
    of a value, or a string that [JSON.parse] refuses. *)
Inductive text :=
  | EmptyText
  | JsonText (v : Js.json)
  | NotJson.

(** The two entries of [localStorage]; [None] is a missing entry. *)
Record Storage := mkStorage
  { stored_token : option string;
    stored_user : option text }.

(** The object a [User] is at run time. *)
Definition User_json (u : User) : Js.json :=
  Js.JObj [("id", Js.JNum (Js.of_Z (id u)));
           ("username", Js.JStr (username u));
           ("email", Js.JStr (email u));
           ("role", Js.JStr (role u))].

(** [JSON.stringify(res.user)] *)
Definition JSON_stringify (u : User) : text := JsonText (User_json u).

(** [JSON.parse(stored)] *)
Definition JSON_parse (t : text) : Result Js.json :=
  match t with
  | JsonText v => Returned v
  | EmptyText | NotJson => Thrown JsonSyntaxError
  end.

(** The [useState] cells; [user] is whatever value was parsed or
    received, [JNull] being [null]. *)
Record State := mkState
  { user : Js.json;
    token : option string;
    isLoading : bool }.

(** [isAuthenticated: !!token && !!user] *)
Definition isAuthenticated (s : State) : bool :=
  Js.truthy_string (token s) && Js.truthy (user s).

(** The initializers of the cells, run when the provider mounts:
    [const stored = localStorage.getItem('user');
     return stored ? JSON.parse(stored) : null;]
    and [localStorage.getItem('token')]. *)
Definition restore (disk : Storage) : Result State :=
  let parsed :=
    match stored_user disk with
    | None | Some EmptyText => Returned Js.JNull
    | Some t => JSON_parse t
    end in
  match parsed with
  | Returned v => Returned (mkState v (stored_token disk) false)
  | Thrown e => Thrown e
  end.

(** Memory and durable storage together. *)
Record World := mkWorld { mem : State; disk : Storage }.

Definition setIsLoading (v : bool) (w : World) : World :=
  mkWorld (mkState (user (mem w)) (token (mem w)) v) (disk w).

(** [api.login] and [api.register] end alike:
    [if (!res.ok) throw new Error(err.error || fallback); return res.json();] *)
Definition loginUser (r : FetchResult AuthResponse) : Result AuthResponse :=
  settle "Failed to login" r.
Definition registerUser (r : FetchResult AuthResponse) : Result AuthResponse :=
  settle "Failed to register" r.

(** What [login] and [register] do once the call has settled:
    [setUser(res.user); setToken(res.token);
     localStorage.setItem('token', res.token);
     localStorage.setItem('user', JSON.stringify(res.user));]
    and [setIsLoading(false)] in either case. The two state updates
    are rendered together. *)
Definition settled (outcome : Result AuthResponse) (w : World) : World :=
  match outcome with
  | Returned res =>
      mkWorld (mkState (User_json (Api.user res)) (Some (Api.token res)) false)
              (mkStorage (Some (Api.token res)) (Some (JSON_stringify (Api.user res))))
  | Thrown _ => setIsLoading false w
  end.

Definition login (r : FetchResult AuthResponse) (w : World) : World :=
  settled (loginUser r) (setIsLoading true w).

Definition register (r : FetchResult AuthResponse) (w : World) : World :=
  settled (registerUser r) (setIsLoading true w).

(** [setUser(null); setToken(null); localStorage.removeItem(...)] *)
Definition logout (w : World) : World :=
  mkWorld (mkState Js.JNull None (isLoading (mem w))) (mkStorage None None).

(** A first visit: nothing is stored. *)
Definition fresh_storage : Storage := mkStorage None None.

(** The session states a browser can be in: the provider mounts over
    the storage left by earlier runs, and calls of [login], [register]
    and [logout] complete. [reach_pending] is the render between
    [setIsLoading(true)] and the answer. *)
Inductive reachable : World → Prop :=
  | reach_start s :
      restore fresh_storage = Returned s →
      reachable (mkWorld s fresh_storage)
  | reach_reload w s :
      reachable w → restore (disk w) = Returned s →
      reachable (mkWorld s (disk w))
  | reach_pending w :
      reachable w → reachable (setIsLoading true w)
  | reach_login w r :
      reachable w → reachable (login r w)
  | reach_register w r :
      reachable w → reachable (register r w)
  | reach_logout w :
      reachable w → reachable (logout w).

(** Memory and storage hold nothing, or the token and the identity
    of one answer of the credential service. *)
Definition consistent (w : World) : Prop :=
  (user (mem w) = Js.JNull ∧ token (mem w) = None ∧ disk w = fresh_storage)
  ∨ ∃ res : AuthResponse,
      user (mem w) = User_json (Api.user res)
      ∧ token (mem w) = Some (Api.token res)
      ∧ disk w = mkStorage (Some (Api.token res))
                           (Some (JSON_stringify (Api.user res))).

End AuthContext.

(** ** The HMS page backed by the Flask API ([frontend/script.js]) *)

Module ScriptJs.

Import Api.

Definition API_BASE : string := "/api/patients".

(** The inputs of [#patientForm]. *)
Record Form := mkForm
  { patientId : string;
    patientName : string;
    patientDOB : string;
    patientGender : string;
    patientAddress : string;
    patientWard : string;
    admissionDate : string;
    referringDoctor : string }.

(** How the [fetch] of a submission ends: the promise rejects, or a
    response arrives; [result] is [None] when [response.json()]
    rejects and [Some m] when it yields an object whose [message]
    is [m]. *)
Inductive Answer :=
  | Unreachable
  | Answered (ok : bool) (statusText : string) (result : option (option string)).

(** What a handler does to the outside: the alerts shown, the
    requests sent, and whether the form was reset. *)
Record Effects := mkEffects
  { alerts : list string;
    requests : list Request;
    formReset : bool }.

(** The request [fetchAndRenderPatients] sends: none without
    [canView], else a GET carrying the role. *)
Definition fetchAndRenderPatients (userRole : option string) : list Request :=
  if negb (Hms.allows Hms.canView userRole) then []
  else [mkRequest GET (API_BASE +:+ "?role=" +:+ Js.ToString userRole) None None].

Definition role_json (userRole : option string) : Js.json :=
  match userRole with
  | Some r => Js.JStr r
  | None => Js.JNull
  end.

Definition newRecord (userRole : option string) (f : Form) : gmap string Js.json :=
  list_to_map
    [("role", role_json userRole);
     ("name", Js.JStr (patientName f));
     ("dob", Js.JStr (patientDOB f));
     ("gender", Js.JStr (patientGender f));
     ("address", Js.JStr (patientAddress f));
     ("ward", Js.JStr (patientWard f));
     ("admissionDate", Js.JStr (admissionDate f));
     ("doctor", Js.JStr (referringDoctor f))].

(** [handleFormSubmission] *)
Definition handleFormSubmission (userRole : option string) (f : Form)
    (answer : Answer) : Effects :=
  let isUpdate := negb (String.eqb (patientId f) "") in
  if isUpdate && negb (Hms.allows Hms.canEdit userRole)
  then mkEffects ["Permission Denied: You cannot update records."] [] false
  else if negb isUpdate && negb (Hms.allows Hms.canAdd userRole)
  then mkEffects ["Permission Denied: You cannot add new records."] [] false
  else
    let request :=
      mkRequest (if isUpdate then PUT else POST)
                (if isUpdate then API_BASE +:+ "/" +:+ patientId f else API_BASE)
                None (Some (newRecord userRole f)) in
    match answer with
    | Unreachable | Answered _ _ None =>
        mkEffects ["An unexpected error occurred during submission."] [request] false
    | Answered false statusText (Some message) =>
        mkEffects ["Operation Failed: " +:+ error_or message statusText] [request] false
    | Answered true _ (Some message) =>
        mkEffects [default "undefined" message]
                  (request :: fetchAndRenderPatients userRole) true
    end.

End ScriptJs.

(** ** The HMS page that keeps its records in [localStorage] *)

Module LocalHms.

Record Patient := mkPatient
  { id : string;
    name : string;
    dob : string;
    gender : string;
    address : string;
    ward : string;
    admissionDate : string;
    doctor : string }.

Definition initialPatients : list Patient :=
  [ mkPatient "P00123" "Jane Doe" "1985-04-21" "female" "10 Downing St"
              "General" "2025-11-20" "Dr. Lee";
    mkPatient "P00456" "John Smith" "1992-07-15" "male" "42 Wallaby Way"
              "ICU" "2025-12-01" "Dr. Chen" ].

(** The entry ['hms_patients']: missing, or the JSON text of a list
    of records. *)
Definition Storage := option (list Patient).

(** [loadPatients]: the list, and the storage after the call
    ([initializeSampleData] saves the sample). *)
Definition loadPatients (st : Storage) : list Patient * Storage :=
  match st with
  | Some l => (l, st)
  | None => (initialPatients, Some initialPatients)
  end.

(** [s.replace('P', '')]: the first ['P'] is removed. *)
Fixpoint replace_P (s : string) : string :=
  match s with
  | EmptyString => EmptyString
  | String c s' => if Ascii.eqb c "P"%char then s' else String c (replace_P s')
  end.

Definition digit (c : Ascii.ascii) : option Z :=
  let n := Ascii.nat_of_ascii c in
  if (48 <=? n)%nat && (n <=? 57)%nat then Some (Z.of_nat (n - 48)) else None.

(** The white space and the line terminators of ECMAScript: those of
    one byte (U+0009 to U+000D, U+0020), of two (U+00A0) and of three
    (U+1680, U+2000 to U+200A, U+2028, U+2029, U+202F, U+205F, U+3000,
    U+FEFF). *)
Definition whitespace (c : Ascii.ascii) : bool :=
  let n := Ascii.nat_of_ascii c in
  ((9 <=? n)%nat && (n <=? 13)%nat) || (n =? 32)%nat.

Definition whitespace2 (a b : Ascii.ascii) : bool :=
  (Ascii.nat_of_ascii a =? 194)%nat && (Ascii.nat_of_ascii b =? 160)%nat.

Definition whitespace3 (a b c : Ascii.ascii) : bool :=
  let x := Ascii.nat_of_ascii a in
  let y := Ascii.nat_of_ascii b in
  let z := Ascii.nat_of_ascii c in
  ((x =? 225)%nat && (y =? 154)%nat && (z =? 128)%nat)
  || ((x =? 226)%nat && (y =? 128)%nat
      && (((128 <=? z)%nat && (z <=? 138)%nat)
          || (z =? 168)%nat || (z =? 169)%nat || (z =? 175)%nat))
  || ((x =? 226)%nat && (y =? 129)%nat && (z =? 159)%nat)
  || ((x =? 227)%nat && (y =? 128)%nat && (z =? 128)%nat)
  || ((x =? 239)%nat && (y =? 187)%nat && (z =? 191)%nat).

Fixpoint trimStart (s : string) : string :=
  match s with
  | String a s1 =>
      if whitespace a then trimStart s1
      else
        match s1 with
        | String b s2 =>
            if whitespace2 a b then trimStart s2
            else
              match s2 with
              | String c s3 => if whitespace3 a b c then trimStart s3 else s
              | EmptyString => s
              end
        | EmptyString => s
        end
  | EmptyString => EmptyString
  end.

(** The digits at the head of [s], read in base ten onto [acc];
    [None] when [s] does not start with a digit and [seen] is false. *)
Fixpoint digits (s : string) (seen : bool) (acc : Z) : option Z :=
  match s with
  | String c s' =>
      match digit c with
      | Some d => digits s' true (10 * acc + d)%Z
      | None => if seen then Some acc else None
      end
  | EmptyString => if seen then Some acc else None
  end.

(** [parseInt(s, 10)]: the double nearest to the integer the digits
    denote, [NaN] without a digit. *)
Definition parseInt (s : string) : Js.number :=
  let number (sign : Z) (n : option Z) :=
    match n with
    | Some z => Js.round (Qc_of_Z (sign * z))
    | None => Js.NaN
    end in
  match trimStart s with
  | String "-"%char s' => number (-1)%Z (digits s' false 0)
  | String "+"%char s' => number 1%Z (digits s' false 0)
  | s' => number 1%Z (digits s' false 0)
  end.

(** [s.padStart(5, '0')] *)
Definition padStart5 (s : string) : string :=
  String.string_of_list_ascii
    (replicate (5 - String.length s) "0"%char) +:+ s.

(** [generatePatientId(patients)] *)
Definition generatePatientId (patients : list Patient) : string :=
  match last patients with
  | None => "P00001"
  | Some p =>
      let lastNumber := parseInt (replace_P (id p)) in
      let newNumber := Js.add lastNumber (Js.of_Z 1) in
      "P" +:+ padStart5 (Js.Number_toString newNumber)
  end.

Record Effects := mkEffects
  { alerts : list string;
    storage : Storage;
    formReset : bool }.

(** [handleFormSubmission]; the form is the one of [script.js]. *)
Definition handleFormSubmission (userRole : option string) (f : ScriptJs.Form)
    (st : Storage) : Effects :=
  let isUpdate := negb (String.eqb (ScriptJs.patientId f) "") in
  if isUpdate && negb (Hms.allows Hms.canEdit userRole)
  then mkEffects ["Permission Denied: You cannot update records."] st false
  else if negb isUpdate && negb (Hms.allows Hms.canAdd userRole)
  then mkEffects ["Permission Denied: You cannot add new records."] st false
  else
    let '(patients, _) := loadPatients st in
    let newRecord :=
      mkPatient (if isUpdate then ScriptJs.patientId f else generatePatientId patients)
                (ScriptJs.patientName f) (ScriptJs.patientDOB f)
                (ScriptJs.patientGender f) (ScriptJs.patientAddress f)
                (ScriptJs.patientWard f) (ScriptJs.admissionDate f)
                (ScriptJs.referringDoctor f) in
    if isUpdate
    then mkEffects ["Patient " +:+ id newRecord +:+ " updated successfully!"]
           (Some ((λ p, if String.eqb (id p) (id newRecord) then newRecord else p)
                    <$> patients))
           true
    else mkEffects ["New patient " +:+ id newRecord +:+ " added successfully!"]
           (Some (patients ++ [newRecord])%list)
           true.

End LocalHms.

(** ** The policy table of the specification *)

Module Policy.




End Policy.

(** ** Sample data *)

Module Sample.

(** A record of the store, with the given identifier, name and stroke
    members. *)
Definition record (i : Z) (n : string) (stroke prediction : option Js.number)
    : Api.Patient :=
  Api.mkPatient (Some i) (Some n) (Js.of_Z 61) (Some "Female")
    (Js.of_Z 0) (Js.of_Z 0) "Yes" "Self-employed" "Rural"
    (Js.of_Z 202) (Js.of_Z 28) "never smoked" prediction stroke.

Definition doctor : Api.User := Api.mkUser 1 "house" "house@ppth.org" "doctor".
Definition viewer : Api.User := Api.mkUser 7 "clerk" "clerk@ppth.org" "user".

Definition blank_form : ScriptJs.Form :=
  ScriptJs.mkForm "" "Ann" "1990-01-01" "female" "" "ICU" "" "".

End Sample.

(** ** The other handlers of [script.js] *)

Module ScriptPage.

Import Api ScriptJs.

(** [deletePatient(patientId)]; [confirmed] is the answer to [confirm]. *)
Definition deletePatient (userRole : option string) (patientId : string)
    (confirmed : bool) (answer : Answer) : Effects :=
  if negb (Hms.allows Hms.canDelete userRole)
  then mkEffects ["Permission Denied: You cannot discharge/delete records."] [] false
  else if negb confirmed then mkEffects [] [] false
  else
    let request :=
      mkRequest DELETE (API_BASE +:+ "/" +:+ patientId) None
                (Some {[ "role" := role_json userRole ]}) in
    match answer with
    | Unreachable | Answered _ _ None =>
        mkEffects ["An unexpected error occurred during deletion."] [request] false
    | Answered false statusText (Some message) =>
        mkEffects ["Deletion Failed: " +:+ error_or message statusText] [request] false
    | Answered true _ (Some message) =>
        mkEffects [default "undefined" message]
                  (request :: fetchAndRenderPatients userRole) false
    end.

(** How the list request of [populateFormForEdit] ends: the promise
    rejects, or a body arrives; [None] when it is not the JSON text of
    an array of records ([response.json()] or [patients.find] throws).
    The records have the members of the localStorage page. *)
Inductive ListAnswer :=
  | ListUnreachable
  | ListBody (patients : option (list LocalHms.Patient)).

(** What [populateFormForEdit] does: alerts, requests, and the values it
    writes into the form ([None] when the form is left alone). *)
Record Populated := mkPopulated
  { shown : list string;
    sent : list Request;
    filled : option Form }.

(** [patients.find((p) => p.id === patientId)] *)
Definition find_patient (patientId : string) (patients : list LocalHms.Patient)
    : option LocalHms.Patient :=
  List.find (λ p, String.eqb (LocalHms.id p) patientId) patients.

(** The values written into the inputs of the form. *)
Definition form_of (p : LocalHms.Patient) : Form :=
  mkForm (LocalHms.id p) (LocalHms.name p) (LocalHms.dob p) (LocalHms.gender p)
         (LocalHms.address p) (LocalHms.ward p) (LocalHms.admissionDate p)
         (LocalHms.doctor p).

(** [populateFormForEdit(patientId)] *)
Definition populateFormForEdit (userRole : option string) (patientId : string)
    (answer : ListAnswer) : Populated :=
  if negb (Hms.allows Hms.canEdit userRole)
  then mkPopulated ["Permission Denied: You cannot open the form for editing."] [] None
  else
    let request :=
      mkRequest GET (API_BASE +:+ "?role=" +:+ Js.ToString userRole) None None in
    match answer with
    | ListUnreachable | ListBody None =>
        mkPopulated ["Could not load patient data for editing."] [request] None
    | ListBody (Some patients) =>
        match find_patient patientId patients with
        | None => mkPopulated ["Patient record not found."] [request] None
        | Some patient => mkPopulated [] [request] (Some (form_of patient))
        end
    end.

(** [updateUIToReflectRole]: whether the tab of the form is displayed,
    and the request of [fetchAndRenderPatients('')]. *)
Definition updateUIToReflectRole (userRole : option string) : bool * list Request :=
  (Hms.allows Hms.canAdd userRole || Hms.allows Hms.canEdit userRole,
   fetchAndRenderPatients userRole).

End ScriptPage.

(** ** The other handlers of the localStorage page *)

Module LocalPage.

Import LocalHms.

(** The rows of [userRoles]. *)
Record Account := mkAccount { password : string; role : string }.

Definition userRoles : gmap string Account :=
  <["admin" := mkAccount "1234" "administrator"]>
    (<["doctor" := mkAccount "pass" "doctor"]>
      (<["user" := mkAccount "view" "viewer"]> ∅)).

(** The two entries of [sessionStorage]. *)
Record Session := mkSession
  { hms_user : option string;
    hms_role : option string }.

(** The page: the session and the stored records. *)
Record Page := mkPage { session : Session; records : Storage }.

(** [getCurrentRole] *)
Definition getCurrentRole (pg : Page) : option string := hms_role (session pg).

(** The predicate of [renderPatientTable]:
    [p.name.toLowerCase().includes(searchQuery.toLowerCase()) ||
     p.id.toLowerCase().includes(searchQuery.toLowerCase())] *)
Definition matches {host : Js.Unicode} (searchQuery : string) (p : Patient) : bool :=
  Js.includes (Js.toLowerCase (name p)) (Js.toLowerCase searchQuery)
  || Js.includes (Js.toLowerCase (id p)) (Js.toLowerCase searchQuery).

(** The buttons of a row. *)
Inductive Action := ViewEdit | Discharge | NoActions.

Definition actionButtons (userRole : option string) : list Action :=
  let edit := Hms.allows Hms.canEdit userRole in
  let delete := Hms.allows Hms.canDelete userRole in
  if negb edit && negb delete then [NoActions]
  else ((if edit then [ViewEdit] else []) ++ (if delete then [Discharge] else []))%list.

(** [renderPatientTable(searchQuery)]: the rows shown, each with its
    buttons, and the storage after the call. *)
Definition renderPatientTable {host : Js.Unicode} (searchQuery : string) (pg : Page)
    : list (Patient * list Action) * Storage :=
  let '(patients, st) := loadPatients (records pg) in
  ((λ p, (p, actionButtons (getCurrentRole pg)))
     <$> List.filter (matches searchQuery) patients,
   st).

(** [deletePatient(patientId)] *)
Definition deletePatient (userRole : option string) (patientId : string)
    (confirmed : bool) (st : Storage) : Effects :=
  if negb (Hms.allows Hms.canDelete userRole)
  then mkEffects ["Permission Denied: You cannot discharge/delete records."] st false
  else if negb confirmed then mkEffects [] st false
  else
    let '(patients, _) := loadPatients st in
    mkEffects ["Patient " +:+ patientId +:+ " discharged."]
      (Some (List.filter (λ p, negb (String.eqb (id p) patientId)) patients))
      false.

(** [populateFormForEdit(patientId)]: the alert, if any, the values
    written into the form, if any, and the storage after the call. *)
Definition populateFormForEdit (userRole : option string) (patientId : string)
    (st : Storage) : list string * option ScriptJs.Form * Storage :=
  if negb (Hms.allows Hms.canEdit userRole)
  then (["Permission Denied: You cannot open the form for editing."], None, st)
  else
    let '(patients, st') := loadPatients st in
    ([], ScriptPage.form_of <$> ScriptPage.find_patient patientId patients, st').

(** The login handler: [const user = userRoles[userId];
    if (user && user.password === password) { ...setItem... } else alert(...)].
    For a name inherited from [Object.prototype] [user] is truthy but
    has no [password], and [undefined === password] is false, as for a
    missing row. On success the table is rendered, which loads the
    records. The result tells whether the dashboard is shown. *)
Definition login {host : Js.Unicode} (userId pass : string) (pg : Page) : Page * bool :=
  match userRoles !! userId with
  | Some a =>
      if String.eqb (password a) pass
      then
        let signed := mkPage (mkSession (Some userId) (Some (role a))) (records pg) in
        (mkPage (session signed) (renderPatientTable "" signed).2, true)
      else (pg, false)
  | None => (pg, false)
  end.

(** The logout handler. *)
Definition logout (pg : Page) : Page :=
  mkPage (mkSession None None) (records pg).

(** What the user does on the page. *)
Inductive Event :=
  | Login (userId pass : string)
  | Logout
  | Search (searchQuery : string)
  | Submit (f : ScriptJs.Form)
  | Delete (patientId : string) (confirmed : bool).

Definition step {host : Js.Unicode} (pg : Page) (e : Event) : Page :=
  match e with
  | Login userId pass => (login userId pass pg).1
  | Logout => logout pg
  | Search q => mkPage (session pg) (renderPatientTable q pg).2
  | Submit f =>
      mkPage (session pg) (storage (handleFormSubmission (getCurrentRole pg) f (records pg)))
  | Delete patientId confirmed =>
      mkPage (session pg)
             (storage (deletePatient (getCurrentRole pg) patientId confirmed (records pg)))
  end.

Definition run {host : Js.Unicode} (pg : Page) (es : list Event) : Page :=
  fold_left step es pg.

(** The records the page works on: what [loadPatients] yields. *)
Definition patients_of (pg : Page) : list Patient := (loadPatients (records pg)).1.

Definition is_login (e : Event) : bool :=
  match e with
  | Login _ _ => true
  | _ => false
  end.

(** The number in an identifier, as [generatePatientId] reads it. *)
Definition number_of (i : string) : Js.number := parseInt (replace_P i).

(** The integers every one of which is a double: up to [2^53]. *)
Definition safe : Z := (2 ^ 53)%Z.

(** [i] is numbered below [j]. *)
Definition below (i j : string) : Prop :=
  ∃ m n, number_of i = Js.of_Z m ∧ number_of j = Js.of_Z n ∧ (0 ≤ m < n)%Z.

(** The identifiers of the records carry increasing numbers, none of
    them above [bound]. *)
Definition ascending (bound : Z) (l : list Patient) : Prop :=
  (0 ≤ bound)%Z
  ∧ StronglySorted below (id <$> l)
  ∧ Forall (λ i, ∃ n, number_of i = Js.of_Z n ∧ (0 ≤ n ≤ bound)%Z) (id <$> l).

(** The stored identifiers carry increasing numbers up to [bound]; a
    missing entry stands for the sample data. *)
Definition well_numbered (bound : Z) (st : Storage) : Prop :=
  ascending bound (loadPatients st).1.

End LocalPage.

(** ** The router ([App.tsx]) *)

Module App.

Inductive View := Spinner | Children | NavigateToLogin.

(** [PrivateRoute]: the spinner while [isLoading], else the children
    when [isAuthenticated], else [<Navigate to="/login" />]. *)
Definition PrivateRoute (s : AuthContext.State) : View :=
  if AuthContext.isLoading s then Spinner
  else if AuthContext.isAuthenticated s then Children
  else NavigateToLogin.

End App.

(** ** What the requests of the dashboard carry *)

Module Wire.

(** The [Authorization] header is the bearer header of [token]. *)
Definition authorized (token : option string) (q : Api.Request) : Prop :=
  Api.authorization q = Api.bearer token.

(** The members of [INITIAL_FORM]. *)
Definition form_members : gset string :=
  {[ "name"; "gender"; "age"; "hypertension"; "heart_disease"; "ever_married";
     "work_type"; "residence_type"; "avg_glucose_level"; "bmi"; "smoking_status";
     "stroke" ]}.

(** While a new record is being entered, the form has the members of
    [INITIAL_FORM]. *)
Definition create_form (s : Ui.State) : Prop :=
  Dashboard.editingPatient (Ui.page s) = None →
  dom (Ui.formData s) = form_members.

(** Neither ['Male'] nor ['Female']. *)
Definition other_gender (p : Api.Patient) : bool :=
  negb (bool_decide (Api.gender p = Some "Male"))
  && negb (bool_decide (Api.gender p = Some "Female")).

(** In both slices of the stroke chart. *)
Definition in_both_slices (p : Api.Patient) : bool :=
  Dashboard.in_stroke_slice p && Dashboard.in_no_stroke_slice p.

(** [stroke] is 0 or 1, as the interface declares it. *)
Definition stroke_declared (p : Api.Patient) : bool :=
  Js.strict_eq (Api.stroke p) 0 || Js.strict_eq (Api.stroke p) 1.

(** The value of a numeric member is finite. *)
Definition finite (x : Js.number) : Prop := ∃ q, x = Js.Finite q.

End Wire.

(** ** What happens to a session, one event at a time *)

Module AuthTrace.

Import Api AuthContext.

Inductive Event :=
  | Reload
  | Pending
  | LoginSettled (r : FetchResult AuthResponse)
  | RegisterSettled (r : FetchResult AuthResponse)
  | LoggedOut.

(** One event; [None] when the provider throws while it mounts. *)
Definition step (w : World) (e : Event) : option World :=
  match e with
  | Reload =>
      match restore (disk w) with
      | Returned s => Some (mkWorld s (disk w))
      | Thrown _ => None
      end
  | Pending => Some (setIsLoading true w)
  | LoginSettled r => Some (login r w)
  | RegisterSettled r => Some (register r w)
  | LoggedOut => Some (logout w)
  end.

Fixpoint run (w : World) (es : list Event) : option World :=
  match es with
  | [] => Some w
  | e :: es' =>
      match step w e with
      | Some w' => run w' es'
      | None => None
      end
  end.

(** A login or a registration that fails: the request is rejected, or
    no answer or no JSON body arrives. *)
Definition fails (r : FetchResult AuthResponse) : Prop :=
  match r with
  | Accepted (Some _) => False
  | _ => True
  end.

(** Events that neither sign in nor sign out: reloads, pending renders,
    and logins and registrations that fail. *)
Definition idle (e : Event) : Prop :=
  match e with
  | Reload | Pending => True
  | LoginSettled r | RegisterSettled r => fails r
  | LoggedOut => False
  end.

(** Events that do not sign in. *)
Definition signs_nobody_in (e : Event) : Prop :=
  match e with
  | LoginSettled r | RegisterSettled r => fails r
  | _ => True
  end.

End AuthTrace.

(** * Properties *)

(** ** The permission dictionary and the two gates *)

Section PermissionTable.

Import Hms.

Lemma Get_cases (k : string) :
  Get k =
    if decide (k = "administrator") then Some (Row administrator_row)
    else if decide (k = "doctor") then Some (Row doctor_row)
    else if decide (k = "viewer") then Some (Row viewer_row)
    else if Js.inherited k then Some (Inherited k)
    else None.
Proof.
  unfold Get, permissions.
  rewrite !lookup_insert, lookup_empty.
  repeat case_decide; congruence.
Qed.

Lemma Get_viewer : Get "viewer" = Some (Row viewer_row).
Proof. reflexivity. Qed.

(** The lookup of the current permissions, case by case: the three
    rows for the three keys, the inherited member for a name of
    [Object.prototype], the viewer row for anything else. *)
Lemma getCurrentPermissions_cases (userRole : option string) :
  getCurrentPermissions userRole =
    let k := Js.ToPropertyKey userRole in
    Some (if decide (k = "administrator") then Row administrator_row
          else if decide (k = "doctor") then Row doctor_row
          else if Js.inherited k then Inherited k
          else Row viewer_row).
Proof.
  unfold getCurrentPermissions. rewrite Get_cases, Get_viewer. cbn zeta.
  repeat case_decide; try reflexivity.
  - match goal with H : _ = "viewer" |- _ => rewrite H end. reflexivity.
  - destruct (Js.inherited _); reflexivity.
Qed.

Lemma permissions_keys (k : string) :
  permissions !! k = None ↔
  k ≠ "administrator" ∧ k ≠ "doctor" ∧ k ≠ "viewer".
Proof.
  unfold permissions. rewrite !lookup_insert, lookup_empty.
  repeat case_decide; subst; split; try done; try tauto.
  all: intros (?&?&?); congruence.
Qed.

(** A role that is neither a key of the dictionary nor a name
    inherited from [Object.prototype] gets the viewer row. *)
Lemma getCurrentPermissions_fallback (userRole : option string) :
  permissions !! Js.ToPropertyKey userRole = None →
  Js.inherited (Js.ToPropertyKey userRole) = false →
  getCurrentPermissions userRole = Some (Row viewer_row).
Proof.
  intros Hown Hproto. apply permissions_keys in Hown as (?&?&?).
  rewrite getCurrentPermissions_cases. cbn zeta.
  rewrite Hproto. repeat case_decide; done.
Qed.

(** No role outside the dictionary is let through a mutating check. *)
Lemma unknown_role_cannot_mutate (userRole : option string) :
  permissions !! Js.ToPropertyKey userRole = None →
  allows canAdd userRole = false
  ∧ allows canEdit userRole = false
  ∧ allows canDelete userRole = false.
Proof.
  intros Hown. apply permissions_keys in Hown as (?&?&?).
  unfold allows. rewrite getCurrentPermissions_cases. cbn zeta.
  repeat case_decide; try done.
  destruct (Js.inherited _); done.
Qed.

(** The absent role reads the key ["null"], which falls back. *)
Lemma getCurrentPermissions_null :
  getCurrentPermissions None = Some (Row viewer_row).
Proof. reflexivity. Qed.

End PermissionTable.

(** C10. The lookup [permissions[userRole] || permissions.viewer] at the
    role ["constructor"]: it is not a key of the dictionary, yet the
    lookup does not fall back to the viewer row; it yields the member
    inherited from [Object.prototype], whose [canView] is [undefined],
    so the view check fails and the list of records is not requested. *)
Theorem getCurrentPermissions_inherited_name :
  Hms.permissions !! "constructor" = None
  ∧ Hms.getCurrentPermissions (Some "constructor") = Some (Hms.Inherited "constructor")
  ∧ Hms.getCurrentPermissions (Some "constructor") ≠ Some (Hms.Row Hms.viewer_row)
  ∧ Hms.flag Hms.canView (Hms.getCurrentPermissions (Some "constructor")) = None
  ∧ Hms.allows Hms.canView (Some "constructor") = false
  ∧ ScriptJs.fetchAndRenderPatients (Some "constructor") = [].
Proof. repeat split; try reflexivity. discriminate. Qed.

Section Gates.

Import Api Policy.

Lemma canModify_doctor (u : User) :
  Dashboard.canModify (Some u) = true ↔ role u = "doctor".
Proof. cbn. apply String.eqb_eq. Qed.


End Gates.



(** ** The mutation handlers *)

Section Orchestrator.

Import Api.

(** *** [script.js] *)

Lemma fetchAndRenderPatients_reads (userRole : option string) :
  Forall reads (ScriptJs.fetchAndRenderPatients userRole).
Proof.
  unfold ScriptJs.fetchAndRenderPatients.
  destruct (negb _); repeat constructor.
Qed.

Lemma newRecord_no_id (userRole : option string) (f : ScriptJs.Form) :
  ScriptJs.newRecord userRole f !! "id" = None.
Proof. reflexivity. Qed.

Lemma fetchAndRenderPatients_no_id (userRole : option string) :
  Forall carries_no_id (ScriptJs.fetchAndRenderPatients userRole).
Proof.
  unfold ScriptJs.fetchAndRenderPatients.
  destruct (negb _); repeat constructor. intros b Hb. discriminate.
Qed.

Lemma handleFormSubmission_no_id userRole f answer :
  Forall carries_no_id
    (ScriptJs.requests (ScriptJs.handleFormSubmission userRole f answer)).
Proof.
  pose proof (fetchAndRenderPatients_no_id userRole) as Hget.
  assert (Hreq : ∀ m u, carries_no_id
                   (mkRequest m u None (Some (ScriptJs.newRecord userRole f)))).
  { intros m u b [= <-]. apply newRecord_no_id. }
  unfold ScriptJs.handleFormSubmission.
  repeat match goal with
         | |- context [if ?c then _ else _] => destruct c
         | |- context [match ?a with _ => _ end] => destruct a
         end; cbn; repeat constructor; auto.
Qed.

(** A submission that the role's flag does not allow shows the denial
    and sends nothing. *)
Lemma handleFormSubmission_denied userRole f answer :
  Hms.allows (if String.eqb (ScriptJs.patientId f) "" then Hms.canAdd else Hms.canEdit)
             userRole = false →
  ScriptJs.handleFormSubmission userRole f answer =
    ScriptJs.mkEffects
      [if String.eqb (ScriptJs.patientId f) ""
       then "Permission Denied: You cannot add new records."
       else "Permission Denied: You cannot update records."]
      [] false.
Proof.
  unfold ScriptJs.handleFormSubmission.
  destruct (String.eqb (ScriptJs.patientId f) ""); cbn; intros ->; reflexivity.
Qed.

(** *** The dashboard *)

Lemma fetchPatients_reads token r d :
  Forall reads (Dashboard.fetchPatients token r d).2.
Proof.
  unfold Dashboard.fetchPatients, Api.fetchPatients.
  destruct (negb _); cbn; repeat constructor.
Qed.

Lemma fetchPatients_modal token r d :
  Dashboard.isModalOpen (Dashboard.fetchPatients token r d).1 = Dashboard.isModalOpen d
  ∧ Dashboard.editingPatient (Dashboard.fetchPatients token r d).1
    = Dashboard.editingPatient d.
Proof.
  unfold Dashboard.fetchPatients, Api.fetchPatients.
  destruct (negb _); cbn; [done|].
  destruct (settle _ r) as [[data|]|e]; done.
Qed.

Lemma reads_no_id (q : Request) : reads q → body q = None → carries_no_id q.
Proof. intros _ Hb b. rewrite Hb. discriminate. Qed.

Lemma fetchPatients_no_id token r d :
  Forall carries_no_id (Dashboard.fetchPatients token r d).2.
Proof.
  unfold Dashboard.fetchPatients, Api.fetchPatients.
  destruct (negb _); cbn; repeat constructor. intros b Hb. discriminate.
Qed.

Lemma handleDelete_no_id token i confirmed r refetch d :
  Forall carries_no_id (Dashboard.handleDelete token i confirmed r refetch d).1.2.
Proof.
  unfold Dashboard.handleDelete.
  destruct (negb _); cbn; [constructor|].
  destruct confirmed; cbn; [|constructor].
  pose proof (fetchPatients_no_id token refetch d) as Hget.
  destruct (Dashboard.fetchPatients token refetch d) as [d' sent'].
  destruct r as [|error|payload]; cbn in *; repeat constructor; try done.
Qed.

(** The body of whatever [handleModalSubmit] sends is the form data
    it was given. *)
Lemma handleModalSubmit_no_id token data r refetch d :
  data !! "id" = None →
  Forall carries_no_id (Dashboard.handleModalSubmit token data r refetch d).1.2.
Proof.
  intros Hdata. unfold Dashboard.handleModalSubmit.
  destruct (negb _); cbn; [constructor|].
  pose proof (fetchPatients_no_id token refetch d) as Hget.
  destruct (Dashboard.fetchPatients token refetch d) as [d' sent'].
  assert (Hreq : ∀ m u a, carries_no_id (mkRequest m u a (Some data))).
  { by intros m u a b [= <-]. }
  destruct (Dashboard.isUpdate d); cbn;
    destruct (settle _ r); cbn in *; repeat constructor; auto.
Qed.

Lemma handleModalSubmit_modal token data r refetch d :
  Dashboard.editingPatient (Dashboard.handleModalSubmit token data r refetch d).1.1
  = Dashboard.editingPatient d.
Proof.
  unfold Dashboard.handleModalSubmit.
  destruct (negb _); cbn; [done|].
  pose proof (fetchPatients_modal token refetch d) as [_ Hed].
  destruct (Dashboard.fetchPatients token refetch d) as [d' sent'].
  destruct (Dashboard.isUpdate d); cbn; destruct (settle _ r); cbn in *; done.
Qed.

(** *** The form *)

Lemma INITIAL_FORM_no_id : PatientModal.INITIAL_FORM !! "id" = None.
Proof. reflexivity. Qed.

Lemma resetForm_no_id (initialData : option Patient) :
  PatientModal.resetForm initialData !! "id" = None.
Proof.
  destruct initialData; cbn; [apply lookup_delete_eq | apply INITIAL_FORM_no_id].
Qed.

Lemma handleChange_no_id field value formData :
  formData !! "id" = None →
  PatientModal.handleChange field value formData !! "id" = None.
Proof.
  intros H. unfold PatientModal.handleChange.
  rewrite lookup_insert_ne; [done|]. by destruct field.
Qed.

(** *** Runs of the page *)

Section Runs.

Context {host : Js.Unicode}.
Variable user : option User.
Variable token : option string.

Lemma step_no_id s sent s' :
  Ui.formData s !! "id" = None →
  Ui.step user token s sent s' →
  Ui.formData s' !! "id" = None ∧ Forall carries_no_id sent.
Proof.
  intros Hform Hstep.
  destruct Hstep as
    [s r d sent E | s q | s _ | s p _ _
    | s p confirmed r refetch d sent alerted _ _ E
    | s field value _ | s r refetch d sent thrown _ E | s _];
    unfold Ui.sync; cbn [Ui.formData].
  - split; [done|].
    pose proof (fetchPatients_no_id token r (Ui.page s)) as H. by rewrite E in H.
  - by split.
  - split; [apply resetForm_no_id | constructor].
  - split; [apply resetForm_no_id | constructor].
  - split; [done|].
    pose proof (handleDelete_no_id token (patient_id p) confirmed r refetch (Ui.page s))
      as H.
    by rewrite E in H.
  - split; [by apply handleChange_no_id | constructor].
  - split.
    + destruct thrown; cbn [Ui.formData]; [done | apply resetForm_no_id].
    + pose proof (handleModalSubmit_no_id token (Ui.formData s) r refetch (Ui.page s)
                    Hform) as H.
      by rewrite E in H.
  - split; [apply resetForm_no_id | constructor].
Qed.

Lemma run_no_id s0 sent s :
  Ui.formData s0 !! "id" = None →
  Ui.run user token s0 sent s →
  Ui.formData s !! "id" = None ∧ Forall carries_no_id sent.
Proof.
  intros H0. induction 1 as [|s0 sent s' sent' s'' _ IH Hstep].
  - split; [done | constructor].
  - destruct (IH H0) as [Hform Hsent].
    destruct (step_no_id _ _ _ Hform Hstep) as [Hform' Hsent'].
    split; [done|]. by apply Forall_app.
Qed.

(** Where nothing may be modified, the form stays closed and every
    request reads. *)
Lemma step_read_only s sent s' :
  Dashboard.canModify user = false →
  Dashboard.isModalOpen (Ui.page s) = false →
  Ui.step user token s sent s' →
  Dashboard.isModalOpen (Ui.page s') = false ∧ Forall reads sent.
Proof.
  intros Hrole Hclosed Hstep.
  destruct Hstep as
    [s r d sent E | s q | s Hc | s p Hc _
    | s p confirmed r refetch d sent alerted Hc _ E
    | s field value Ho | s r refetch d sent thrown Ho E | s Ho];
    try congruence.
  - pose proof (fetchPatients_reads token r (Ui.page s)) as Hsent.
    pose proof (fetchPatients_modal token r (Ui.page s)) as [Hopen _].
    rewrite E in Hsent, Hopen. cbn in *. split; [congruence | done].
  - split; [done | constructor].
Qed.

Lemma run_read_only s0 sent s :
  Dashboard.canModify user = false →
  Dashboard.isModalOpen (Ui.page s0) = false →
  Ui.run user token s0 sent s →
  Dashboard.isModalOpen (Ui.page s) = false ∧ Forall reads sent.
Proof.
  intros Hrole H0. induction 1 as [|s0 sent s' sent' s'' _ IH Hstep].
  - split; [done | constructor].
  - destruct (IH H0) as [Hclosed Hsent].
    destruct (step_read_only _ _ _ Hrole Hclosed Hstep) as [Hclosed' Hsent'].
    split; [done|]. by apply Forall_app.
Qed.

End Runs.

End Orchestrator.

(** C3. A create or update attempted under a role that is denied it
    sends nothing. In [script.js] a submission whose flag ([canAdd],
    [canEdit]) the role's permissions do not grant ends with the
    "Permission Denied" alert and without any request. In the dashboard
    the controls that open the form are rendered under [canModify]
    only: under any other role the form never opens, so nothing is
    submitted, and every request the page sends is a GET. *)
Theorem denied_mutation_sends_nothing {host : Js.Unicode} :
  (∀ (userRole : option string) (f : ScriptJs.Form) (answer : ScriptJs.Answer),
     Hms.allows (if String.eqb (ScriptJs.patientId f) "" then Hms.canAdd else Hms.canEdit)
                userRole = false →
     ScriptJs.requests (ScriptJs.handleFormSubmission userRole f answer) = []
     ∧ ScriptJs.alerts (ScriptJs.handleFormSubmission userRole f answer)
       = [if String.eqb (ScriptJs.patientId f) ""
          then "Permission Denied: You cannot add new records."
          else "Permission Denied: You cannot update records."])
  ∧ (∀ (user : option Api.User) (token : option string)
       (sent : list Api.Request) (s : Ui.State),
       Dashboard.canModify user = false →
       Ui.run user token Ui.initial sent s →
       Dashboard.isModalOpen (Ui.page s) = false ∧ Forall Api.reads sent).
Proof.
  split.
  - intros userRole f answer Hdenied.
    by rewrite (handleFormSubmission_denied _ _ answer Hdenied).
  - intros user token sent s Hrole Hrun.
    by apply (run_read_only user token Ui.initial sent s).
Qed.

(** C3, witness: a ["user"] submitting the empty form of [script.js],
    and a ["user"] whose dashboard loads its records. *)
Lemma denied_mutation_sends_nothing_witness :
  ScriptJs.requests
    (ScriptJs.handleFormSubmission (Some "user")
       Sample.blank_form ScriptJs.Unreachable) = []
  ∧ Forall Api.reads
      [Api.mkRequest Api.GET "http://localhost:5000/api/patients/" (Some "Bearer t") None].
Proof.
  split.
  - apply (proj1 (denied_mutation_sends_nothing (host := Js.ascii_host))). reflexivity.
  - apply (proj2 (denied_mutation_sends_nothing (host := Js.ascii_host))
             (Some Sample.viewer) (Some "t") _
             (Ui.mkState (Dashboard.mkState [] false "" false None "")
                         PatientModal.INITIAL_FORM "")).
    + reflexivity.
    + apply (Ui.run_step _ _ Ui.initial [] Ui.initial); [constructor|].
      apply (Ui.step_refresh _ _ Ui.initial (Api.Accepted (Some (Some [])))).
      reflexivity.
Defined.

Section CreatePath.

Import Api.

Lemma addPatient_sends patientData token r :
  (Api.addPatient patientData token r).1 =
    [mkRequest POST (PATIENT_API_URL +:+ "/patients/") (bearer token) (Some patientData)].
Proof. reflexivity. Qed.

(** The create path of the localStorage page: the new record is
    appended with the identifier [generatePatientId] computes. *)
Lemma local_create_assigns_id userRole f st :
  ScriptJs.patientId f = "" →
  Hms.allows Hms.canAdd userRole = true →
  LocalHms.storage (LocalHms.handleFormSubmission userRole f st) =
    Some ((LocalHms.loadPatients st).1 ++
          [LocalHms.mkPatient
             (LocalHms.generatePatientId (LocalHms.loadPatients st).1)
             (ScriptJs.patientName f) (ScriptJs.patientDOB f)
             (ScriptJs.patientGender f) (ScriptJs.patientAddress f)
             (ScriptJs.patientWard f) (ScriptJs.admissionDate f)
             (ScriptJs.referringDoctor f)])%list.
Proof.
  intros Hid Hadd. unfold LocalHms.handleFormSubmission.
  rewrite Hid, Hadd. cbn [String.eqb negb andb].
  by destruct (LocalHms.loadPatients st).
Qed.

End CreatePath.

(** C4, as the sources have it. Where a record store is called, the
    client sends no identifier: every request of any run of the
    dashboard, and every request of [script.js], has a body without an
    [id] member, and [addPatient] sends the data it is given as they
    are. The page that keeps its records in [localStorage] calls no
    store: its create path appends the record under the identifier
    [generatePatientId] computes from the last record. *)
Theorem store_backed_create_sends_no_id {host : Js.Unicode} :
  (∀ (user : option Api.User) (token : option string)
     (sent : list Api.Request) (s : Ui.State),
     Ui.run user token Ui.initial sent s → Forall Api.carries_no_id sent)
  ∧ (∀ patientData token r,
       (Api.addPatient patientData token r).1 =
         [Api.mkRequest Api.POST "http://localhost:5000/api/patients/"
            (Api.bearer token) (Some patientData)])
  ∧ (∀ userRole f answer,
       Forall Api.carries_no_id
         (ScriptJs.requests (ScriptJs.handleFormSubmission userRole f answer)))
  ∧ (∀ userRole f st,
       ScriptJs.patientId f = "" →
       Hms.allows Hms.canAdd userRole = true →
       LocalHms.storage (LocalHms.handleFormSubmission userRole f st) =
         Some ((LocalHms.loadPatients st).1 ++
               [LocalHms.mkPatient
                  (LocalHms.generatePatientId (LocalHms.loadPatients st).1)
                  (ScriptJs.patientName f) (ScriptJs.patientDOB f)
                  (ScriptJs.patientGender f) (ScriptJs.patientAddress f)
                  (ScriptJs.patientWard f) (ScriptJs.admissionDate f)
                  (ScriptJs.referringDoctor f)])%list).
Proof.
  split; [|split; [|split]].
  - intros user token sent s Hrun.
    apply (run_no_id user token Ui.initial sent s); [|done].
    apply INITIAL_FORM_no_id.
  - intros. apply addPatient_sends.
  - apply handleFormSubmission_no_id.
  - apply local_create_assigns_id.
Qed.

(** C4, witness: a doctor opens the form and saves it while the store is
    out of reach; then an administrator adds a record on the
    localStorage page. *)
Lemma store_backed_create_sends_no_id_witness :
  Forall Api.carries_no_id
    (([] ++ []) ++
     [Api.mkRequest Api.POST "http://localhost:5000/api/patients/" (Some "Bearer t")
        (Some PatientModal.INITIAL_FORM)])%list
  ∧ LocalHms.storage
      (LocalHms.handleFormSubmission (Some "administrator") Sample.blank_form
         (Some LocalHms.initialPatients))
    = Some (LocalHms.initialPatients ++
            [LocalHms.mkPatient "P00457" "Ann" "1990-01-01" "female" "" "ICU" "" ""])%list.
Proof.
  split.
  - eapply (proj1 (store_backed_create_sends_no_id (host := Js.ascii_host))
              (Some Sample.doctor) (Some "t")).
    eapply Ui.run_step.
    + eapply Ui.run_step; [apply Ui.run_nil|].
      apply Ui.step_add. reflexivity.
    + eapply (Ui.step_submit _ _ _ Api.NetworkFailure Api.NetworkFailure);
        reflexivity.
  - apply (proj2 (proj2 (proj2 (store_backed_create_sends_no_id (host := Js.ascii_host)))));
      reflexivity.
Defined.

(** C4, counterexample. On the localStorage page an administrator adds
    the first record: the form carries no identifier, and the record is
    stored under ["P00001"], an identifier the client made up. *)
Lemma local_create_synthesizes_id :
  LocalHms.storage
    (LocalHms.handleFormSubmission (Some "administrator") Sample.blank_form (Some []))
  = Some [LocalHms.mkPatient "P00001" "Ann" "1990-01-01" "female" "" "ICU" "" ""].
Proof. reflexivity. Qed.

(** ** The record cache: refresh, search, statistics *)

Section Cache.

Import Api.

Lemma Qc_of_nat_nonzero (n : nat) : n ≠ 0 → Qc_of_Z (Z.of_nat n) ≠ 0%Qc.
Proof.
  intros Hn H. rewrite <- Z2Qc_inj_0 in H. apply Z2Qc_inj in H. lia.
Qed.

Lemma or_one_nonzero (n : nat) : Js.or_one n ≠ 0.
Proof. unfold Js.or_one. destruct n; cbn; lia. Qed.

Lemma round_not_NaN (q : Qc) : Js.round q ≠ Js.NaN.
Proof.
  unfold Js.round.
  repeat match goal with |- context [if ?c then _ else _] => destruct c end;
    discriminate.
Qed.

Lemma add_not_NaN (a : Js.number) (x : Qc) :
  a ≠ Js.NaN → Js.add a (Js.Finite x) ≠ Js.NaN.
Proof. destruct a; cbn; [intros _; apply round_not_NaN|done..]. Qed.

Lemma sum_not_NaN (f : Patient → Js.number) (l : list Patient) (a : Js.number) :
  Forall (λ p, ∃ x, f p = Js.Finite x) l →
  a ≠ Js.NaN →
  fold_left (λ acc p, Js.add acc (f p)) l a ≠ Js.NaN.
Proof.
  intros H. revert a. induction H as [|p l [x Hx] _ IH]; intros a Ha; cbn.
  - done.
  - rewrite Hx. by apply IH, add_not_NaN.
Qed.

(** The mean of finite values is a number, whatever the cache: the
    divisor is never zero, so [0 / 0] does not arise. *)
Lemma mean_not_NaN (f : Patient → Js.number) (l : list Patient) :
  Forall (λ p, ∃ x, f p = Js.Finite x) l →
  Dashboard.mean f l ≠ Js.NaN.
Proof.
  intros H. unfold Dashboard.mean.
  pose proof (sum_not_NaN f l (Js.of_Z 0) H ltac:(done)) as Hsum.
  destruct (fold_left _ l _) as [x| |sg]; [|done|done].
  unfold Js.of_nat, Js.of_Z. cbn.
  rewrite bool_decide_eq_false_2; [apply round_not_NaN|].
  apply Qc_of_nat_nonzero, or_one_nonzero.
Qed.

Lemma count_or (f g : Patient → bool) (l : list Patient) :
  Dashboard.count (λ p, f p || g p) l =
    Dashboard.count f l + Dashboard.count (λ p, negb (f p) && g p) l.
Proof.
  unfold Dashboard.count. induction l as [|p l IH]; [done|].
  cbn. destruct (f p), (g p); cbn; lia.
Qed.

Lemma includes_empty (hay : string) : Js.includes hay "" = true.
Proof. by destruct hay. Qed.

Context {host : Js.Unicode}.

Lemma toLowerCase_empty : Js.toLowerCase "" = "".
Proof. by rewrite Js.toLowerCase_ascii. Qed.


Lemma filter_all {A} (f : A → bool) (l : list A) :
  Forall (λ p, f p = true) l → List.filter f l = l.
Proof. induction 1 as [|p l Hp _ IH]; cbn; [done|]. by rewrite Hp, IH. Qed.

(** *** The search on the heap *)






End Cache.

(** C6. A refresh that fails, because there is no token or because the
    list request throws, leaves the cached records as they were; the
    failure is recorded in the separate [error] cell, and loading is
    over. *)
Theorem failed_refresh_keeps_cache
    (token : option string) (r : Api.FetchResult (option (list Api.Patient)))
    (s : Dashboard.State) (e : Api.Exception) :
  (Api.fetchPatients token r).2 = Api.Thrown e →
  Dashboard.patients (Dashboard.fetchPatients token r s).1 = Dashboard.patients s
  ∧ Dashboard.error (Dashboard.fetchPatients token r s).1 =
      (if Js.truthy_string token
       then "Could not connect to the server. Is the Flask backend running?"
       else "No authentication token found")
  ∧ Dashboard.isLoading (Dashboard.fetchPatients token r s).1 = false.
Proof.
  unfold Dashboard.fetchPatients, Api.fetchPatients.
  destruct (Js.truthy_string token); cbn; [|done].
  destruct (Api.settle _ r) as [[data|]|e']; cbn; [discriminate|done|done].
Qed.

(** C5, as the sources have it. The header card counts the records with
    [stroke === 1]. The 'Stroke' slice of the chart counts the records
    with [stroke === 1] or [stroke_prediction === 1]: the header count
    plus the records only the prediction flags. *)
Theorem stroke_slice_merges_both_fields (l : list Api.Patient) :
  Dashboard.strokeRiskObserved (Dashboard.header l)
    = Dashboard.count (λ p, Js.strict_eq (Api.stroke p) 1) l
  ∧ (Dashboard.strokeStats l).1
    = Dashboard.strokeRiskObserved (Dashboard.header l)
      + Dashboard.count
          (λ p, negb (Js.strict_eq (Api.stroke p) 1)
                && Js.strict_eq (Api.stroke_prediction p) 1) l
  ∧ (Dashboard.strokeRiskObserved (Dashboard.header l) ≤ (Dashboard.strokeStats l).1)%nat.
Proof.
  assert (H : (Dashboard.strokeStats l).1
              = Dashboard.strokeRiskObserved (Dashboard.header l)
                + Dashboard.count
                    (λ p, negb (Js.strict_eq (Api.stroke p) 1)
                          && Js.strict_eq (Api.stroke_prediction p) 1) l).
  { apply count_or. }
  split; [reflexivity|]. split; [exact H|]. rewrite H. lia.
Qed.

(** C8. Over the empty cache the header shows the count 0 and the two
    means 0 / 1 = 0, printed "0.0": the divisor [patients.length || 1]
    is 1, where a bare [patients.length] would give 0 / 0 = NaN. *)
Theorem header_of_empty_cache :
  Dashboard.totalPatients (Dashboard.header []) = 0
  ∧ Js.or_one (length ([] : list Api.Patient)) = 1
  ∧ Dashboard.avgGlucoseLevel (Dashboard.header []) = Js.of_Z 0
  ∧ Dashboard.avgAge (Dashboard.header []) = Js.of_Z 0
  ∧ Dashboard.avgGlucoseLevel (Dashboard.header []) ≠ Js.NaN
  ∧ Dashboard.avgAge (Dashboard.header []) ≠ Js.NaN
  ∧ Js.toFixed1 (Dashboard.avgGlucoseLevel (Dashboard.header [])) = "0.0"
  ∧ Js.toFixed1 (Dashboard.avgAge (Dashboard.header [])) = "0.0"
  ∧ Js.div (Js.of_Z 0) (Js.of_nat (length ([] : list Api.Patient))) = Js.NaN.
Proof.
  assert (H : Dashboard.mean Api.age [] = Js.of_Z 0
              ∧ Dashboard.mean Api.avg_glucose_level [] = Js.of_Z 0).
  { split; unfold Dashboard.mean, Js.of_Z; cbn; f_equal; by apply Qc_is_canon. }
  destruct H as [Hage Hglu].
  cbn [Dashboard.header Dashboard.totalPatients Dashboard.avgGlucoseLevel
       Dashboard.avgAge].
  rewrite Hage, Hglu.
  repeat split; try reflexivity; discriminate.
Qed.

(** C6, witness: one record is cached; the store is out of reach, and
    then it answers with [null]. *)
Lemma failed_refresh_keeps_cache_witness :
  Dashboard.patients
    (Dashboard.fetchPatients (Some "t") Api.NetworkFailure
       (Dashboard.mkState [Sample.record 2 "Jane Doe" None None] false "" false None "")).1
  = [Sample.record 2 "Jane Doe" None None]
  ∧ Dashboard.patients
      (Dashboard.fetchPatients (Some "t") (Api.Accepted (Some None))
         (Dashboard.mkState [Sample.record 2 "Jane Doe" None None] false "" false None "")).1
    = [Sample.record 2 "Jane Doe" None None]
  ∧ Dashboard.error
      (Dashboard.fetchPatients (Some "t") (Api.Accepted (Some None))
         (Dashboard.mkState [Sample.record 2 "Jane Doe" None None] false "" false None "")).1
    = "Could not connect to the server. Is the Flask backend running?".
Proof.
  split; [|split].
  - refine (proj1 (failed_refresh_keeps_cache (Some "t") Api.NetworkFailure
                     (Dashboard.mkState [Sample.record 2 "Jane Doe" None None]
                        false "" false None "")
                     Api.FetchTypeError _)).
    reflexivity.
  - refine (proj1 (failed_refresh_keeps_cache (Some "t") (Api.Accepted (Some None))
                     (Dashboard.mkState [Sample.record 2 "Jane Doe" None None]
                        false "" false None "")
                     Api.NullTypeError _)).
    reflexivity.
  - refine (proj1 (proj2 (failed_refresh_keeps_cache (Some "t") (Api.Accepted (Some None))
                            (Dashboard.mkState [Sample.record 2 "Jane Doe" None None]
                               false "" false None "")
                            Api.NullTypeError _))).
    reflexivity.
Defined.

(** C5, counterexample. A record with a prior stroke and a record that
    only the prediction flags each add one to the 'Stroke' slice, and
    the header card does not see the second: the slice is not the count
    of prior incidents, and no aggregate counts the prediction alone. *)
Lemma stroke_slice_counts_either_field :
  (Dashboard.strokeStats
     [Sample.record 1 "A" (Some (Js.of_Z 1)) (Some (Js.of_Z 0))]).1 = 1
  ∧ (Dashboard.strokeStats
       [Sample.record 2 "B" (Some (Js.of_Z 0)) (Some (Js.of_Z 1))]).1 = 1
  ∧ Dashboard.strokeRiskObserved
      (Dashboard.header [Sample.record 2 "B" (Some (Js.of_Z 0)) (Some (Js.of_Z 1))]) = 0.
Proof. repeat split; vm_compute; reflexivity. Qed.



(** ** The session *)

Section Session.

Import Api AuthContext.

Lemma settled_consistent (r : FetchResult AuthResponse) (fallback : string)
    (w : World) :
  consistent w →
  consistent (settled (settle fallback r) (setIsLoading true w)).
Proof.
  intros Hw. destruct r as [|error|[res|]]; cbn; try done.
  right. by exists res.
Qed.

Lemma reachable_consistent (w : World) : reachable w → consistent w.
Proof.
  induction 1 as [s Hs | w s _ IH Hs | w _ IH | w r _ IH | w r _ IH | w _ IH].
  - left. cbn in Hs. by injection Hs as <-.
  - destruct w as [m d].
    destruct IH as [(Hu & Ht & Hd)|(res & Hu & Ht & Hd)];
      cbn in Hd, Hs; subst d; cbn in Hs; injection Hs as <-.
    + by left.
    + right. by exists res.
  - done.
  - by apply settled_consistent.
  - by apply settled_consistent.
  - by left.
Qed.

Lemma truthy_nonempty (t : string) : t ≠ "" → Js.truthy_string (Some t) = true.
Proof.
  intros Ht. cbn. apply negb_true_iff, String.eqb_neq, Ht.
Qed.

End Session.

(** C2, as the sources have it. In every session state a browser
    reaches from a first visit through reloads and calls of [login],
    [register] and [logout], the two cells are set or unset together,
    and so are the two stored entries; [isAuthenticated], which is
    computed from the two cells, is true exactly when both are set and
    the token is not the empty string. *)
Theorem authenticated_iff_both_present (w : AuthContext.World) :
  AuthContext.reachable w →
  (AuthContext.isAuthenticated (AuthContext.mem w) = true
   ↔ (∃ t, AuthContext.token (AuthContext.mem w) = Some t ∧ t ≠ "")
     ∧ AuthContext.user (AuthContext.mem w) ≠ Js.JNull)
  ∧ (AuthContext.token (AuthContext.mem w) = None
     ↔ AuthContext.user (AuthContext.mem w) = Js.JNull)
  ∧ (AuthContext.stored_token (AuthContext.disk w) = None
     ↔ AuthContext.stored_user (AuthContext.disk w) = None).
Proof.
  intros Hw. apply reachable_consistent in Hw.
  unfold AuthContext.isAuthenticated.
  destruct Hw as [(-> & -> & ->)|(res & -> & -> & ->)].
  - cbn. split; [|done]. split; [done|]. by intros [(t & ? & _) _].
  - cbn. rewrite andb_true_r, negb_true_iff, String.eqb_neq.
    repeat split; try done.
    + by exists (Api.token res).
    + by intros [(t & [= <-] & Hne) _].
Qed.

(** C2, witness: a first visit, then a login that succeeds. *)
Lemma authenticated_iff_both_present_witness :
  AuthContext.isAuthenticated
    (AuthContext.mem
       (AuthContext.login
          (Api.Accepted (Some (Api.mkAuthResponse "jwt" Sample.viewer)))
          (AuthContext.mkWorld (AuthContext.mkState Js.JNull None false)
                               AuthContext.fresh_storage))) = true
  ↔ (∃ t, AuthContext.token
            (AuthContext.mem
               (AuthContext.login
                  (Api.Accepted (Some (Api.mkAuthResponse "jwt" Sample.viewer)))
                  (AuthContext.mkWorld (AuthContext.mkState Js.JNull None false)
                                       AuthContext.fresh_storage))) = Some t
          ∧ t ≠ "")
    ∧ AuthContext.user
        (AuthContext.mem
           (AuthContext.login
              (Api.Accepted (Some (Api.mkAuthResponse "jwt" Sample.viewer)))
              (AuthContext.mkWorld (AuthContext.mkState Js.JNull None false)
                                   AuthContext.fresh_storage))) ≠ Js.JNull.
Proof.
  apply authenticated_iff_both_present.
  apply AuthContext.reach_login.
  apply AuthContext.reach_start. reflexivity.
Defined.

(** C2, counterexample. The token is kept as it is received: after a
    login answered with the empty token both cells are set, the
    identity is truthy and the token is not, and the session is not
    authenticated. *)
Lemma empty_token_is_not_authenticated :
  AuthContext.reachable
    (AuthContext.login (Api.Accepted (Some (Api.mkAuthResponse "" Sample.viewer)))
       (AuthContext.mkWorld (AuthContext.mkState Js.JNull None false)
                            AuthContext.fresh_storage))
  ∧ AuthContext.token
      (AuthContext.mem
         (AuthContext.login (Api.Accepted (Some (Api.mkAuthResponse "" Sample.viewer)))
            (AuthContext.mkWorld (AuthContext.mkState Js.JNull None false)
                                 AuthContext.fresh_storage))) = Some ""
  ∧ AuthContext.user
      (AuthContext.mem
         (AuthContext.login (Api.Accepted (Some (Api.mkAuthResponse "" Sample.viewer)))
            (AuthContext.mkWorld (AuthContext.mkState Js.JNull None false)
                                 AuthContext.fresh_storage))) ≠ Js.JNull
  ∧ AuthContext.isAuthenticated
      (AuthContext.mem
         (AuthContext.login (Api.Accepted (Some (Api.mkAuthResponse "" Sample.viewer)))
            (AuthContext.mkWorld (AuthContext.mkState Js.JNull None false)
                                 AuthContext.fresh_storage))) = false.
Proof.
  split; [|repeat split; try reflexivity; discriminate].
  apply AuthContext.reach_login, AuthContext.reach_start. reflexivity.
Qed.

(** C7, as the sources have it. The provider reads the two entries apart
    from each other. It throws exactly when the identity entry is a
    text that is not JSON. Otherwise the token cell is the stored token,
    the identity cell is the parsed value ([null] for a missing or empty
    entry), and the session is authenticated exactly when the token is
    a non-empty string and the parsed value is truthy; so a missing
    entry gives a session that is not authenticated. *)
Theorem restore_reads_entries_independently :
  (∀ disk : AuthContext.Storage,
     match AuthContext.restore disk with
     | Api.Thrown e =>
         AuthContext.stored_user disk = Some AuthContext.NotJson
         ∧ e = Api.JsonSyntaxError
     | Api.Returned s =>
         AuthContext.stored_user disk ≠ Some AuthContext.NotJson
         ∧ AuthContext.token s = AuthContext.stored_token disk
         ∧ AuthContext.user s =
             match AuthContext.stored_user disk with
             | Some (AuthContext.JsonText v) => v
             | _ => Js.JNull
             end
         ∧ AuthContext.isAuthenticated s =
             Js.truthy_string (AuthContext.stored_token disk)
             && match AuthContext.stored_user disk with
                | Some (AuthContext.JsonText v) => Js.truthy v
                | _ => false
                end
     end)
  ∧ (∀ t : option string,
       ∃ s, AuthContext.restore (AuthContext.mkStorage t None) = Api.Returned s
            ∧ AuthContext.isAuthenticated s = false)
  ∧ (∀ u : option AuthContext.text,
       match AuthContext.restore (AuthContext.mkStorage None u) with
       | Api.Thrown _ => u = Some AuthContext.NotJson
       | Api.Returned s => AuthContext.isAuthenticated s = false
       end).
Proof.
  split; [|split].
  - intros [t [[|v|]|]]; cbn; unfold AuthContext.isAuthenticated; cbn;
      rewrite ?andb_false_r; repeat split; done.
  - intros t. eexists. split; [reflexivity|].
    unfold AuthContext.isAuthenticated. cbn. apply andb_false_r.
  - intros [[|v|]|]; done.
Qed.

(** C7, counterexample. With a token and an identity entry that is not
    JSON the provider throws while it mounts; with a token and the
    identity entry [{}] the session is authenticated although the
    identity has none of its members. *)
Lemma restore_fails_on_malformed_identity :
  AuthContext.restore (AuthContext.mkStorage (Some "jwt") (Some AuthContext.NotJson))
    = Api.Thrown Api.JsonSyntaxError
  ∧ AuthContext.restore
      (AuthContext.mkStorage (Some "jwt") (Some (AuthContext.JsonText (Js.JObj []))))
    = Api.Returned (AuthContext.mkState (Js.JObj []) (Some "jwt") false)
  ∧ AuthContext.isAuthenticated (AuthContext.mkState (Js.JObj []) (Some "jwt") false)
    = true.
Proof. repeat split. Qed.

(** * Further properties *)

Set Warnings "-clear-no-such-hyp".

(** ** Integers as doubles *)

Section Rounding.

Lemma Qc_of_Z_dyadic (z k : Z) :
  (0 ≤ k)%Z → Js.dyadic (z * 2 ^ k) (- k) = Qc_of_Z z.
Proof.
  intros Hk. unfold Js.dyadic. apply Qc_is_canon.
  change (this (Qc_of_Z z)) with (inject_Z z).
  unfold Q2Qc. cbn [this]. rewrite Qred_correct.
  rewrite Z.max_l by lia. rewrite Z.opp_involutive, Z.max_r by lia.
  unfold Qeq, inject_Z. cbn [Qnum Qden].
  rewrite Z2Pos.id by (apply Z.pow_pos_nonneg; lia). rewrite Z.pow_0_r. lia.
Qed.

(** An integer of magnitude below [2^53] is a double. *)
Lemma round_integer (z : Z) :
  (Z.abs z < 2 ^ 53)%Z → Js.round (Qc_of_Z z) = Js.of_Z z.
Proof.
  intros Hz. unfold Js.round.
  change (Qnum (Qc_of_Z z)) with z. change (Qden (Qc_of_Z z)) with 1%positive.
  destruct (Z.eqb_spec z 0) as [->|Hnz]; [reflexivity|].
  change (Z.log2 1) with 0%Z. rewrite Z.sub_0_r.
  set (a := Z.abs z).
  assert (Ha : (0 < a)%Z) by lia.
  pose proof (Z.log2_nonneg a) as Hlog0.
  pose proof (Z.log2_spec a Ha) as [Hlo Hhi].
  assert (Hlog : (Z.log2 a < 53)%Z) by (apply Z.log2_lt_pow2; lia).
  rewrite (Z.max_l 0 (- Z.log2 a)), (Z.max_r 0 (Z.log2 a)) by lia.
  rewrite Z.pow_0_r, Z.mul_1_r, Z.mul_1_l.
  destruct (Z.ltb_spec a (2 ^ Z.log2 a)) as [?|_]; [lia|].
  rewrite (Z.max_l (Z.log2 a - 52) (-1074)) by lia.
  set (k := (52 - Z.log2 a)%Z).
  replace (- (Z.log2 a - 52))%Z with k by lia.
  rewrite (Z.max_r 0 k), (Z.max_l 0 (Z.log2 a - 52)) by lia.
  rewrite Z.pow_0_r, Z.mul_1_l, Z.div_1_r, Z.mod_1_r.
  change (2 * 0)%Z with 0%Z. change (1 <? 0)%Z with false.
  change (1 =? 0)%Z with false. cbn [orb andb].
  assert (Hpow : (0 < 2 ^ k)%Z) by (apply Z.pow_pos_nonneg; lia).
  assert (Hbig : (a * 2 ^ k < 2 ^ 1024)%Z).
  { assert (a * 2 ^ k < 2 ^ (Z.log2 a + 1) * 2 ^ k)%Z as H by nia.
    rewrite <- Z.pow_add_r in H by lia.
    replace (Z.log2 a + 1 + k)%Z with 53%Z in H by lia.
    assert (2 ^ 53 < 2 ^ 1024)%Z by (apply Z.pow_lt_mono_r; lia). lia. }
  assert (Hvalue : Js.dyadic (Z.sgn z * (a * 2 ^ k)) (Z.log2 a - 52) = Qc_of_Z z).
  { replace (Z.log2 a - 52)%Z with (- k)%Z by lia.
    rewrite <- (Qc_of_Z_dyadic z k) by lia. f_equal. subst a. lia. }
  rewrite Hvalue.
  destruct (Z.leb_spec 0 (Z.log2 a - 52)) as [Hexp|Hexp]; [|reflexivity].
  assert (Z.log2 a - 52 = 0)%Z as -> by lia.
  rewrite Z.pow_0_r, Z.mul_1_r.
  by rewrite (proj2 (Z.leb_gt _ _)) by lia.
Qed.


(** So is [2^53] itself, and its opposite. *)
Lemma round_safe (z : Z) :
  (Z.abs z ≤ LocalPage.safe)%Z → Js.round (Qc_of_Z z) = Js.of_Z z.
Proof.
  unfold LocalPage.safe. intros Hz.
  destruct (decide (Z.abs z < 2 ^ 53)%Z) as [Hlt|Hge]; [by apply round_integer|].
  assert (z = 2 ^ 53 ∨ z = - 2 ^ 53)%Z as [-> | ->] by lia;
    unfold Js.of_Z; vm_compute; f_equal; by apply Qc_is_canon.
Qed.

Lemma add_safe (m n : Z) :
  (Z.abs (m + n) ≤ LocalPage.safe)%Z →
  Js.add (Js.of_Z m) (Js.of_Z n) = Js.of_Z (m + n).
Proof.
  intros H. unfold Js.add, Js.of_Z at 1 2. rewrite <- Z2Qc_inj_add.
  by apply round_safe.
Qed.

Lemma of_Z_inj (m n : Z) : Js.of_Z m = Js.of_Z n → m = n.
Proof. by intros [= ->]. Qed.

Lemma negative_of_Z (z : Z) : (0 ≤ z)%Z → Js.negative (Qc_of_Z z) = false.
Proof.
  intros Hz. unfold Js.negative. apply bool_decide_eq_false_2.
  rewrite <- Z2Qc_inj_0, <- Z2Qc_inj_lt. lia.
Qed.

(** The numeral of a safe integer is its decimal numeral. *)
Lemma Number_toString_safe (z : Z) :
  (0 ≤ z ≤ LocalPage.safe)%Z → Js.Number_toString (Js.of_Z z) = pretty z.
Proof.
  unfold LocalPage.safe. intros Hz. unfold Js.Number_toString, Js.of_Z.
  case_bool_decide as H0.
  - rewrite <- Z2Qc_inj_0 in H0. apply Z2Qc_inj in H0 as ->. reflexivity.
  - rewrite negative_of_Z by lia.
    change (Qden (Qc_of_Z z)) with 1%positive. change (Qnum (Qc_of_Z z)) with z.
    rewrite Pos.eqb_refl, (proj2 (Z.leb_le _ _)) by lia. reflexivity.
Qed.
End Rounding.

(** ** Identifiers of the localStorage page *)

Section Identifiers.

Import LocalHms.

Lemma digit_pretty_N_char (d : N) :
  (d < 10)%N → digit (pretty_N_char d) = Some (Z.of_N d).
Proof.
  intros Hd.
  assert (d = 0 ∨ d = 1 ∨ d = 2 ∨ d = 3 ∨ d = 4 ∨ d = 5 ∨ d = 6 ∨ d = 7
          ∨ d = 8 ∨ d = 9)%N as H by lia.
  repeat destruct H as [->|H]; try subst d; reflexivity.
Qed.

(** Reading the decimal digits of [x] appends them to what was read. *)
Lemma digits_pretty_N_go (x : N) :
  (0 < x)%N →
  ∃ k : Z, (0 ≤ k)%Z ∧ ∀ s seen acc,
    digits (pretty_N_go x s) seen acc = digits s true (acc * 10 ^ k + Z.of_N x)%Z.
Proof.
  induction (N.lt_wf_0 x) as [x _ IH]. intros Hx.
  pose proof (N.mod_lt x 10 ltac:(lia)) as Hmod.
  pose proof (N.div_mod x 10 ltac:(lia)) as Hdiv.
  destruct (decide (x `div` 10 = 0)%N) as [Hz|Hnz].
  - exists 1%Z. split; [lia|]. intros s seen acc.
    rewrite pretty_N_go_step, Hz, pretty_N_go_0 by done. cbn [digits].
    rewrite digit_pretty_N_char by done. f_equal. lia.
  - destruct (IH (x `div` 10)%N ltac:(apply N.div_lt; lia) ltac:(lia))
      as (k & Hk & IHk).
    exists (k + 1)%Z. split; [lia|]. intros s seen acc.
    rewrite pretty_N_go_step, IHk by done. cbn [digits].
    rewrite digit_pretty_N_char by done. f_equal.
    rewrite Z.pow_add_r by lia. lia.
Qed.

Lemma digits_pretty (z : Z) (seen : bool) :
  (0 ≤ z)%Z → digits (pretty z) seen 0 = Some z.
Proof.
  intros Hz. destruct z as [|p|p]; [reflexivity| |lia].
  change (pretty (Z.pos p)) with (pretty (N.pos p)).
  unfold pretty, pretty_N. rewrite decide_False by done.
  destruct (digits_pretty_N_go (N.pos p)) as (k & _ & H); [lia|].
  rewrite H. cbn [digits]. f_equal; lia.
Qed.

Lemma digits_zeros (k : nat) (s : string) (seen : bool) :
  digits (String.string_of_list_ascii (replicate k "0"%char) +:+ s) seen 0
  = digits s (seen || bool_decide (k ≠ 0)) 0.
Proof.
  revert seen. induction k as [|k IH]; intros seen.
  - cbn. by rewrite orb_false_r.
  - change (digits (String "0"%char
              (String.string_of_list_ascii (replicate k "0"%char) +:+ s)) seen 0
            = digits s (seen || true) 0).
    cbn [digits]. change (digit "0"%char) with (Some 0%Z). cbn beta iota.
    change (10 * 0 + 0)%Z with 0%Z. rewrite IH, orb_true_r. reflexivity.
Qed.

Lemma digits_head (s : string) (acc n : Z) :
  digits s false acc = Some n →
  ∃ c s' d, s = String c s' ∧ digit c = Some d.
Proof.
  destruct s as [|c s']; cbn; [done|].
  destruct (digit c) as [d|] eqn:Hd; [|done]. eauto.
Qed.

(** A string that starts with a digit is read without trimming and
    without a sign. *)
Lemma parseInt_digits (s : string) (n : Z) :
  digits s false 0 = Some n → parseInt s = Js.round (Qc_of_Z n).
Proof.
  intros H. destruct (digits_head _ _ _ H) as (c & s' & d & -> & Hd).
  unfold parseInt.
  assert (Htrim : trimStart (String c s') = String c s').
  { destruct s' as [|b [|e s3]];
      destruct c as [[] [] [] [] [] [] [] []]; try discriminate Hd; reflexivity. }
  rewrite Htrim.
  destruct c as [[] [] [] [] [] [] [] []]; try discriminate Hd;
    rewrite H; cbn beta iota; by rewrite Z.mul_1_l.
Qed.

Lemma parseInt_padded (z : Z) :
  (0 ≤ z ≤ LocalPage.safe)%Z → parseInt (padStart5 (pretty z)) = Js.of_Z z.
Proof.
  intros Hz. rewrite (parseInt_digits _ z).
  - apply round_safe. lia.
  - unfold padStart5. rewrite digits_zeros. apply digits_pretty. lia.
Qed.

Lemma generatePatientId_number (patients : list Patient) (p : Patient) (n : Z) :
  last patients = Some p →
  LocalPage.number_of (id p) = Js.of_Z n →
  (-1 ≤ n < LocalPage.safe)%Z →
  LocalPage.number_of (generatePatientId patients) = Js.of_Z (n + 1).
Proof.
  intros Hlast Hn Hge. unfold LocalPage.number_of in *.
  unfold generatePatientId. rewrite Hlast, Hn.
  rewrite add_safe by (unfold LocalPage.safe in *; lia).
  rewrite Number_toString_safe by lia.
  change (replace_P ("P" +:+ ?s)) with s.
  apply parseInt_padded. lia.
Qed.

(** At [2^53] the next integer is no double: the sum is [2^53] again. *)
Lemma generatePatientId_stuck (patients : list Patient) (p : Patient) :
  last patients = Some p →
  LocalPage.number_of (id p) = Js.of_Z LocalPage.safe →
  generatePatientId patients = "P9007199254740992".
Proof.
  intros Hlast Hn. unfold LocalPage.number_of in Hn.
  unfold generatePatientId. rewrite Hlast, Hn. by vm_compute.
Qed.

End Identifiers.

(** X1. As long as the numbers are integers every one of which is a
    double (up to [2^53]), the identifier [generatePatientId] makes for
    a list whose last identifier carries the number [n] carries
    [n + 1]: what [String], [padStart] and the prefix ['P'] write,
    [replace] and [parseInt] read back. At [2^53] the sum [n + 1] is
    rounded to [n], and the new identifier carries the number of the
    last one. *)
Theorem generatePatientId_increments
    (patients : list LocalHms.Patient) (p : LocalHms.Patient) :
  last patients = Some p →
  (∀ n : Z,
     LocalPage.number_of (LocalHms.id p) = Js.of_Z n →
     (-1 ≤ n < LocalPage.safe)%Z →
     LocalPage.number_of (LocalHms.generatePatientId patients) = Js.of_Z (n + 1))
  ∧ (LocalPage.number_of (LocalHms.id p) = Js.of_Z LocalPage.safe →
     LocalHms.generatePatientId patients = "P9007199254740992"
     ∧ LocalPage.number_of (LocalHms.generatePatientId patients)
       = Js.of_Z LocalPage.safe).
Proof.
  intros Hlast. split.
  - intros n. by apply generatePatientId_number.
  - intros Hn. rewrite (generatePatientId_stuck patients p Hlast Hn).
    split; [reflexivity|].
    apply (parseInt_padded LocalPage.safe). by vm_compute.
Qed.

(** X1, witness: the sample data, and a list that ends at [2^53]. *)
Lemma generatePatientId_increments_witness :
  LocalPage.number_of (LocalHms.generatePatientId LocalHms.initialPatients)
  = Js.of_Z (456 + 1)
  ∧ LocalHms.generatePatientId
      [LocalHms.mkPatient "P9007199254740992" "Ann" "1990-01-01" "female" "" "ICU" "" ""]
    = "P9007199254740992".
Proof.
  split.
  - apply (proj1 (generatePatientId_increments LocalHms.initialPatients
                    (LocalHms.mkPatient "P00456" "John Smith" "1992-07-15" "male"
                       "42 Wallaby Way" "ICU" "2025-12-01" "Dr. Chen") eq_refl)).
    + apply (parseInt_padded 456). by vm_compute.
    + by vm_compute.
  - apply (proj2 (generatePatientId_increments
                    [LocalHms.mkPatient "P9007199254740992" "Ann" "1990-01-01" "female"
                       "" "ICU" "" ""]
                    (LocalHms.mkPatient "P9007199254740992" "Ann" "1990-01-01" "female"
                       "" "ICU" "" "") eq_refl)).
    apply (parseInt_padded LocalPage.safe). by vm_compute.
Defined.

(** ** The records of the localStorage page *)

Section LocalRecords.

Import LocalHms LocalPage.

Context {host : Js.Unicode}.

Lemma below_irrefl (i : string) : ¬ below i i.
Proof.
  intros (m & n & Hm & Hn & Hlt). rewrite Hm in Hn. apply of_Z_inj in Hn. lia.
Qed.

Lemma StronglySorted_NoDup {A} (R : A → A → Prop) (l : list A) :
  (∀ x, ¬ R x x) → StronglySorted R l → NoDup l.
Proof.
  intros Hirr. induction 1 as [|x l _ IH Hx]; constructor; [|done].
  intros Hin. rewrite Forall_forall in Hx. by apply (Hirr x), Hx.
Qed.

Lemma Forall_ids_filter (P : string → Prop) (f : Patient → bool) (l : list Patient) :
  Forall P (id <$> l) → Forall P (id <$> List.filter f l).
Proof.
  induction l as [|p l IH]; cbn; [done|].
  intros [Hp Hl]%Forall_cons. destruct (f p); cbn; [constructor|]; auto.
Qed.

Lemma ascending_mono (b b' : Z) (l : list Patient) :
  (b ≤ b')%Z → ascending b l → ascending b' l.
Proof.
  intros Hb (H0 & Hs & Hn). split; [lia|]. split; [done|].
  eapply Forall_impl; [exact Hn|]. intros i (n & ? & ?). exists n. split; [done|lia].
Qed.

Lemma ascending_filter (b : Z) (f : Patient → bool) (l : list Patient) :
  ascending b l → ascending b (List.filter f l).
Proof.
  intros (H0 & Hs & Hn). split; [done|]. split; [|by apply Forall_ids_filter].
  clear Hn. induction l as [|p l IH]; cbn; [constructor|].
  cbn in Hs. apply StronglySorted_cons in Hs as [Hp Hl].
  destruct (f p); cbn; [|by apply IH].
  apply StronglySorted_cons. split; [by apply Forall_ids_filter | by apply IH].
Qed.

Lemma ids_replace (new : Patient) (l : list Patient) :
  id <$> ((λ p, if String.eqb (id p) (id new) then new else p) <$> l) = id <$> l.
Proof.
  induction l as [|p l IH]; cbn; [done|]. rewrite IH. f_equal.
  destruct (String.eqb (id p) (id new)) eqn:E; [|done].
  symmetry. by apply String.eqb_eq.
Qed.

(** Below [2^53] the new identifier carries a number above all the
    others. *)
Lemma ascending_snoc (b : Z) (l : list Patient) (new : Patient) :
  ascending b l → (b < safe)%Z → id new = generatePatientId l →
  ascending (b + 1) (l ++ [new]).
Proof.
  intros (H0 & Hs & Hn) Hb Hid. unfold ascending.
  rewrite fmap_app. cbn [fmap list_fmap].
  split; [lia|].
  assert (Hold : Forall (λ i, ∃ n, number_of i = Js.of_Z n ∧ (0 ≤ n ≤ b + 1)%Z)
                   (id <$> l)).
  { eapply Forall_impl; [exact Hn|]. intros i (n & ? & ?). exists n. split; [done|lia]. }
  destruct (last l) as [p|] eqn:Hlast.
  - assert (Hmem : Forall (λ i, i = id p ∨ below i (id p)) (id <$> l)).
    { apply last_Some in Hlast as [l' ->].
      rewrite fmap_app in Hs |- *. cbn [fmap list_fmap] in Hs |- *.
      apply StronglySorted_app in Hs as (Hlt & _ & _).
      apply Forall_app. split; [|by repeat constructor; left].
      apply Forall_forall. intros i Hi. right.
      apply Hlt; [done | by apply list_elem_of_singleton]. }
    assert (Hp : ∃ n, number_of (id p) = Js.of_Z n ∧ (0 ≤ n ≤ b)%Z).
    { rewrite Forall_forall in Hn. apply Hn, list_elem_of_fmap.
      exists p. split; [done | by apply last_Some_elem_of]. }
    destruct Hp as (n & Hnum & Hge).
    assert (Hnew : number_of (id new) = Js.of_Z (n + 1)).
    { rewrite Hid. apply (generatePatientId_number l p n); [done|done|lia]. }
    split.
    + apply StronglySorted_app. split; [|split; [done | repeat constructor]].
      intros i j Hi ->%list_elem_of_singleton.
      rewrite Forall_forall in Hmem.
      destruct (Hmem i Hi) as [->|(m & n' & Hm & Hn' & Hmn)].
      * exists n, (n + 1)%Z. repeat split; try done; lia.
      * rewrite Hnum in Hn'. apply of_Z_inj in Hn' as <-.
        exists m, (n + 1)%Z. repeat split; try done; lia.
    + apply Forall_app. split; [done|]. apply Forall_singleton.
      exists (n + 1)%Z. split; [done | lia].
  - apply last_None in Hlast as ->. rewrite Hid. cbn.
    split; repeat constructor. exists 1%Z.
    split; [apply (parseInt_padded 1); by vm_compute | lia].
Qed.

Lemma number_of_sample :
  number_of "P00123" = Js.of_Z 123 ∧ number_of "P00456" = Js.of_Z 456.
Proof.
  split; [apply (parseInt_padded 123) | apply (parseInt_padded 456)]; by vm_compute.
Qed.

Lemma ascending_initialPatients : ascending 456 initialPatients.
Proof.
  destruct number_of_sample as [H1 H2].
  split; [lia|]. split; cbn.
  - repeat constructor. exists 123%Z, 456%Z. repeat split; (done || lia).
  - repeat constructor; [exists 123%Z | exists 456%Z]; split; (done || lia).
Qed.

Lemma loadPatients_idem (st : Storage) :
  (loadPatients (loadPatients st).2).1 = (loadPatients st).1.
Proof. by destruct st. Qed.

Lemma handleFormSubmission_ascending (b : Z) userRole f (st : Storage) :
  well_numbered b st → (b < safe)%Z →
  well_numbered (b + 1) (storage (handleFormSubmission userRole f st)).
Proof.
  unfold well_numbered. intros Hst Hb.
  pose proof (ascending_mono b (b + 1) _ ltac:(lia) Hst) as Hst'.
  unfold handleFormSubmission.
  destruct (negb (String.eqb (ScriptJs.patientId f) "")) eqn:Hupd; cbn [andb negb].
  - destruct (negb (Hms.allows Hms.canEdit userRole)); [done|].
    destruct (loadPatients st) as [patients st']. cbn in *.
    unfold ascending in *.
    by rewrite (ids_replace
                  (mkPatient (ScriptJs.patientId f) (ScriptJs.patientName f)
                     (ScriptJs.patientDOB f) (ScriptJs.patientGender f)
                     (ScriptJs.patientAddress f) (ScriptJs.patientWard f)
                     (ScriptJs.admissionDate f) (ScriptJs.referringDoctor f))).
  - destruct (negb (Hms.allows Hms.canAdd userRole)); [done|].
    destruct (loadPatients st) as [patients st']. cbn in *.
    by apply ascending_snoc.
Qed.

Lemma deletePatient_ascending (b : Z) userRole patientId confirmed (st : Storage) :
  well_numbered b st →
  well_numbered b (storage (deletePatient userRole patientId confirmed st)).
Proof.
  unfold well_numbered. intros Hst. unfold deletePatient.
  destruct (negb (Hms.allows Hms.canDelete userRole)); [done|].
  destruct (negb confirmed); [done|].
  destruct (loadPatients st) as [patients st']. cbn in *.
  by apply ascending_filter.
Qed.

Lemma renderPatientTable_ascending (b : Z) q (pg : Page) :
  well_numbered b (records pg) → well_numbered b (renderPatientTable q pg).2.
Proof.
  unfold well_numbered. intros Hst. unfold renderPatientTable.
  pose proof (loadPatients_idem (records pg)) as Hidem.
  destruct (loadPatients (records pg)). cbn in *. by rewrite Hidem.
Qed.

Lemma step_ascending (b : Z) (pg : Page) (e : Event) :
  well_numbered b (records pg) → (b < safe)%Z →
  well_numbered (b + 1) (records (step pg e)).
Proof.
  intros Hst Hb.
  assert (Hmono : ∀ st, well_numbered b st → well_numbered (b + 1) st).
  { intros st. apply ascending_mono. lia. }
  destruct e as [u pw| |q|f|i c]; cbn [step records].
  - unfold login. destruct (userRoles !! u) as [a|]; [|by apply Hmono].
    destruct (String.eqb _ _); [|by apply Hmono]. cbn [fst records].
    by apply Hmono, renderPatientTable_ascending.
  - by apply Hmono.
  - by apply Hmono, renderPatientTable_ascending.
  - by apply handleFormSubmission_ascending.
  - by apply Hmono, deletePatient_ascending.
Qed.

Lemma run_ascending (es : list Event) (b : Z) (pg : Page) :
  well_numbered b (records pg) →
  (b + Z.of_nat (length es) ≤ safe)%Z →
  well_numbered (b + Z.of_nat (length es)) (records (run pg es)).
Proof.
  revert b pg. induction es as [|e es IH]; intros b pg Hst Hb.
  - cbn. by rewrite Z.add_0_r.
  - cbn [length] in *. replace (b + Z.of_nat (S (length es)))%Z
      with ((b + 1) + Z.of_nat (length es))%Z by lia.
    apply IH; [|lia]. apply step_ascending; [done|lia].
Qed.

End LocalRecords.

(** X2. On the localStorage page the identifiers stay pairwise
    distinct while their numbers stay within the integers every one of
    which is a double: when the stored identifiers carry increasing
    numbers up to [bound] (as the sample data do, up to 456), then after
    any sequence of logins, logouts, searches, submissions and
    discharges that is no longer than [2^53 - bound] they carry
    increasing numbers still, so no two stored records share an
    identifier. *)
Theorem stored_ids_stay_distinct {host : Js.Unicode}
    (pg : LocalPage.Page) (es : list LocalPage.Event) (bound : Z)
    (l : list LocalHms.Patient) :
  LocalPage.well_numbered bound (LocalPage.records pg) →
  (bound + Z.of_nat (length es) ≤ LocalPage.safe)%Z →
  LocalPage.records (LocalPage.run pg es) = Some l →
  LocalPage.ascending (bound + Z.of_nat (length es)) l
  ∧ NoDup (LocalHms.id <$> l).
Proof.
  intros Hst Hb Hrun. pose proof (run_ascending es bound pg Hst Hb) as H.
  unfold LocalPage.well_numbered in H. rewrite Hrun in H. cbn in H.
  split; [done|].
  destruct H as (_ & Hs & _).
  apply (StronglySorted_NoDup LocalPage.below); [apply below_irrefl | exact Hs].
Qed.

(** X2, witness: a first visit; the administrator signs in, adds two
    records and discharges a sample record. *)
Lemma stored_ids_stay_distinct_witness :
  NoDup (LocalHms.id <$>
    [LocalHms.mkPatient "P00123" "Jane Doe" "1985-04-21" "female" "10 Downing St"
       "General" "2025-11-20" "Dr. Lee";
     LocalHms.mkPatient "P00457" "Ann" "1990-01-01" "female" "" "ICU" "" "";
     LocalHms.mkPatient "P00458" "Ann" "1990-01-01" "female" "" "ICU" "" ""]).
Proof.
  refine (proj2 (stored_ids_stay_distinct (host := Js.ascii_host)
                   (LocalPage.mkPage (LocalPage.mkSession None None) None)
                   [LocalPage.Login "admin" "1234";
                    LocalPage.Submit Sample.blank_form;
                    LocalPage.Submit Sample.blank_form;
                    LocalPage.Delete "P00456" true]
                   456 _ _ _ _)).
  - apply ascending_initialPatients.
  - by vm_compute.
  - reflexivity.
Defined.

Section LocalPermissions.

Import LocalHms LocalPage.

Context {host : Js.Unicode}.

Lemma renderPatientTable_patients q (pg : Page) :
  (loadPatients (renderPatientTable q pg).2).1 = patients_of pg.
Proof.
  unfold renderPatientTable, patients_of.
  pose proof (loadPatients_idem (records pg)) as H.
  by destruct (loadPatients (records pg)).
Qed.

(** A step taken under a role that may neither edit nor discharge only
    appends to the records, and appends nothing when the role may not
    add either; the role is the same afterwards, or none. *)
Lemma step_append_only (pg : Page) (e : Event) :
  is_login e = false →
  Hms.allows Hms.canEdit (getCurrentRole pg) = false →
  Hms.allows Hms.canDelete (getCurrentRole pg) = false →
  patients_of pg `prefix_of` patients_of (step pg e)
  ∧ (Hms.allows Hms.canAdd (getCurrentRole pg) = false →
     patients_of (step pg e) = patients_of pg)
  ∧ (getCurrentRole (step pg e) = getCurrentRole pg
     ∨ getCurrentRole (step pg e) = None).
Proof.
  intros He Hedit Hdel.
  destruct e as [u pw| |q|f|i c]; [done|..]; unfold patients_of; cbn [step records].
  - repeat split; auto.
  - rewrite renderPatientTable_patients. repeat split; auto.
  - unfold handleFormSubmission. rewrite Hedit. cbn [negb andb].
    destruct (negb (String.eqb (ScriptJs.patientId f) "")); cbn [andb negb];
      [repeat split; auto|].
    destruct (Hms.allows Hms.canAdd (getCurrentRole pg)); cbn [negb];
      [|repeat split; auto].
    destruct (loadPatients (records pg)) as [patients st']. cbn.
    split; [by apply prefix_app_r | split; [done | auto]].
  - unfold deletePatient. rewrite Hdel. cbn. repeat split; auto.
Qed.

Lemma no_role_no_permission (f : Hms.Perms → bool) :
  f Hms.viewer_row = false → Hms.allows f None = false.
Proof. by intros H. Qed.

End LocalPermissions.

(** X3. On the localStorage page, a session whose role may neither edit
    nor discharge (a doctor, a viewer, an unknown role) only ever
    appends records: whatever is searched, submitted or discharged
    short of a new login, the records it started with remain, in
    order, at the head of the list. *)
Theorem records_append_only_without_edit {host : Js.Unicode}
    (pg : LocalPage.Page) (es : list LocalPage.Event) :
  Forall (λ e, LocalPage.is_login e = false) es →
  Hms.allows Hms.canEdit (LocalPage.getCurrentRole pg) = false →
  Hms.allows Hms.canDelete (LocalPage.getCurrentRole pg) = false →
  LocalPage.patients_of pg `prefix_of` LocalPage.patients_of (LocalPage.run pg es).
Proof.
  intros Hes. revert pg. induction Hes as [|e es He _ IH]; intros pg Hedit Hdel; [done|].
  destruct (step_append_only pg e He Hedit Hdel) as (Hpre & _ & Hrole).
  cbn [LocalPage.run fold_left]. etrans; [exact Hpre|].
  apply IH; destruct Hrole as [-> | ->]; done.
Qed.

(** X3, witness: the doctor of the sample accounts adds a record and
    tries to discharge one. *)
Lemma records_append_only_without_edit_witness :
  LocalHms.initialPatients `prefix_of`
    LocalPage.patients_of
      (LocalPage.run (host := Js.ascii_host)
         (LocalPage.mkPage (LocalPage.mkSession (Some "doctor") (Some "doctor")) None)
         [LocalPage.Submit Sample.blank_form; LocalPage.Delete "P00123" true]).
Proof.
  apply (records_append_only_without_edit (host := Js.ascii_host)
           (LocalPage.mkPage (LocalPage.mkSession (Some "doctor") (Some "doctor")) None)).
  - repeat constructor.
  - reflexivity.
  - reflexivity.
Defined.

(** X4. On the localStorage page, a session whose role has none of
    [canAdd], [canEdit] and [canDelete] (a viewer, an unknown role)
    never changes the records, whatever it searches, submits or
    discharges short of a new login. *)
Theorem records_unchanged_without_permission {host : Js.Unicode}
    (pg : LocalPage.Page) (es : list LocalPage.Event) :
  Forall (λ e, LocalPage.is_login e = false) es →
  Hms.allows Hms.canAdd (LocalPage.getCurrentRole pg) = false →
  Hms.allows Hms.canEdit (LocalPage.getCurrentRole pg) = false →
  Hms.allows Hms.canDelete (LocalPage.getCurrentRole pg) = false →
  LocalPage.patients_of (LocalPage.run pg es) = LocalPage.patients_of pg.
Proof.
  intros Hes. revert pg.
  induction Hes as [|e es He _ IH]; intros pg Hadd Hedit Hdel; [done|].
  destruct (step_append_only pg e He Hedit Hdel) as (_ & Hsame & Hrole).
  cbn [LocalPage.run fold_left]. rewrite <- (Hsame Hadd).
  apply IH; destruct Hrole as [-> | ->]; done.
Qed.

(** X4, witness: the viewer of the sample accounts submits the form and
    tries to discharge a record. *)
Lemma records_unchanged_without_permission_witness :
  LocalPage.patients_of
    (LocalPage.run (host := Js.ascii_host)
       (LocalPage.mkPage (LocalPage.mkSession (Some "user") (Some "viewer")) None)
       [LocalPage.Submit Sample.blank_form; LocalPage.Delete "P00123" true])
  = LocalHms.initialPatients.
Proof.
  apply (records_unchanged_without_permission (host := Js.ascii_host)
           (LocalPage.mkPage (LocalPage.mkSession (Some "user") (Some "viewer")) None)).
  - repeat constructor.
  - reflexivity.
  - reflexivity.
  - reflexivity.
Defined.

Section LocalEdits.

Import LocalHms LocalPage.

Lemma filter_id {A} (f : A → bool) (l : list A) :
  Forall (λ x, f x = true) l → List.filter f l = l.
Proof. induction 1 as [|x l Hx _ IH]; cbn; [done|]. by rewrite Hx, IH. Qed.

Lemma replace_missing (new : Patient) (l : list Patient) :
  Forall (λ p, id p ≠ id new) l →
  (λ p, if String.eqb (id p) (id new) then new else p) <$> l = l.
Proof.
  induction 1 as [|p l Hp _ IH]; cbn; [done|]. rewrite IH.
  apply String.eqb_neq in Hp. by rewrite Hp.
Qed.

Lemma replace_same (p : Patient) (l : list Patient) :
  NoDup (id <$> l) → p ∈ l →
  (λ q, if String.eqb (id q) (id p) then p else q) <$> l = l.
Proof.
  induction l as [|q l IH]; cbn; [done|].
  intros [Hq Hl]%NoDup_cons Hin.
  apply elem_of_cons in Hin as [<-|Hin].
  - rewrite String.eqb_refl. f_equal. apply replace_missing.
    apply Forall_forall. intros r Hr Heq. apply Hq. rewrite <- Heq.
    by apply list_elem_of_fmap_2.
  - rewrite IH by done. destruct (String.eqb (id q) (id p)) eqn:E; [|done].
    apply String.eqb_eq in E. exfalso. apply Hq. rewrite E.
    by apply list_elem_of_fmap_2.
Qed.

Lemma find_patient_Some i (l : list Patient) p :
  ScriptPage.find_patient i l = Some p → p ∈ l ∧ id p = i.
Proof.
  unfold ScriptPage.find_patient. intros H. apply find_some in H as [Hin Heq].
  split; [by apply list_elem_of_In | by apply String.eqb_eq].
Qed.

Lemma form_of_record (p : Patient) :
  mkPatient (ScriptJs.patientId (ScriptPage.form_of p))
    (ScriptJs.patientName (ScriptPage.form_of p))
    (ScriptJs.patientDOB (ScriptPage.form_of p))
    (ScriptJs.patientGender (ScriptPage.form_of p))
    (ScriptJs.patientAddress (ScriptPage.form_of p))
    (ScriptJs.patientWard (ScriptPage.form_of p))
    (ScriptJs.admissionDate (ScriptPage.form_of p))
    (ScriptJs.referringDoctor (ScriptPage.form_of p)) = p.
Proof. by destruct p. Qed.

Lemma userRoles_cases (u : string) :
  userRoles !! u =
    if decide (u = "admin") then Some (mkAccount "1234" "administrator")
    else if decide (u = "doctor") then Some (mkAccount "pass" "doctor")
    else if decide (u = "user") then Some (mkAccount "view" "viewer")
    else None.
Proof.
  unfold userRoles. rewrite !lookup_insert, lookup_empty.
  repeat case_decide; congruence.
Qed.

End LocalEdits.

(** X5. On the localStorage page an update whose identifier no stored
    record has changes nothing and still reports success: the list is
    saved as it was, and the alert says the patient was updated. *)
Theorem update_of_unknown_id_is_silent
    (userRole : option string) (f : ScriptJs.Form) (st : LocalHms.Storage) :
  Hms.allows Hms.canEdit userRole = true →
  ScriptJs.patientId f ≠ "" →
  Forall (λ p, LocalHms.id p ≠ ScriptJs.patientId f) (LocalHms.loadPatients st).1 →
  LocalHms.storage (LocalHms.handleFormSubmission userRole f st)
    = Some (LocalHms.loadPatients st).1
  ∧ LocalHms.alerts (LocalHms.handleFormSubmission userRole f st)
    = ["Patient " +:+ ScriptJs.patientId f +:+ " updated successfully!"].
Proof.
  intros Hedit Hid Hmiss. unfold LocalHms.handleFormSubmission.
  apply String.eqb_neq in Hid. rewrite Hid, Hedit. cbn [negb andb].
  destruct (LocalHms.loadPatients st) as [patients st']. cbn in *.
  split; [|done]. f_equal.
  by apply (replace_missing
              (LocalHms.mkPatient (ScriptJs.patientId f) (ScriptJs.patientName f)
                 (ScriptJs.patientDOB f) (ScriptJs.patientGender f)
                 (ScriptJs.patientAddress f) (ScriptJs.patientWard f)
                 (ScriptJs.admissionDate f) (ScriptJs.referringDoctor f))).
Qed.

(** X5, witness: the administrator updates ["P00999"] over the sample
    data. *)
Lemma update_of_unknown_id_is_silent_witness :
  LocalHms.storage
    (LocalHms.handleFormSubmission (Some "administrator")
       (ScriptJs.mkForm "P00999" "Ann" "1990-01-01" "female" "" "ICU" "" "") None)
  = Some LocalHms.initialPatients.
Proof.
  refine (proj1 (update_of_unknown_id_is_silent (Some "administrator")
                   (ScriptJs.mkForm "P00999" "Ann" "1990-01-01" "female" "" "ICU" "" "")
                   None _ _ _)).
  - reflexivity.
  - discriminate.
  - repeat constructor; discriminate.
Defined.

(** X6. On the localStorage page, discharging the record that was just
    added gives back the list as it was before, when the stored
    identifiers carry increasing numbers below [2^53]: the new
    identifier is fresh, so the discharge removes the new record and
    nothing else. *)
Theorem discharge_undoes_create
    (userRole : option string) (f : ScriptJs.Form) (st : LocalHms.Storage)
    (bound : Z) :
  Hms.allows Hms.canAdd userRole = true →
  Hms.allows Hms.canDelete userRole = true →
  ScriptJs.patientId f = "" →
  LocalPage.well_numbered bound st →
  (bound < LocalPage.safe)%Z →
  LocalHms.storage
    (LocalPage.deletePatient userRole
       (LocalHms.generatePatientId (LocalHms.loadPatients st).1) true
       (LocalHms.storage (LocalHms.handleFormSubmission userRole f st)))
  = Some (LocalHms.loadPatients st).1.
Proof.
  intros Hadd Hdel Hid Hst Hb.
  rewrite (local_create_assigns_id userRole f st Hid Hadd).
  unfold LocalPage.deletePatient. rewrite Hdel. cbn [negb LocalHms.loadPatients].
  cbn [LocalHms.storage]. f_equal.
  unfold LocalPage.well_numbered in Hst.
  set (l := (LocalHms.loadPatients st).1) in *.
  set (new := LocalHms.mkPatient (LocalHms.generatePatientId l) _ _ _ _ _ _ _).
  assert (Hnodup : NoDup (LocalHms.id <$> (l ++ [new])%list)).
  { apply (StronglySorted_NoDup LocalPage.below); [apply below_irrefl|].
    by apply (ascending_snoc bound l new Hst Hb). }
  rewrite fmap_app in Hnodup. apply NoDup_app in Hnodup as (_ & Hfresh & _).
  rewrite List.filter_app. cbn [List.filter LocalHms.id new].
  rewrite String.eqb_refl. cbn [negb]. rewrite app_nil_r.
  apply filter_id, Forall_forall. intros p Hp.
  apply negb_true_iff, String.eqb_neq. intros Heq.
  apply (Hfresh (LocalHms.id p)); [by apply list_elem_of_fmap_2|].
  rewrite Heq. cbn. by left.
Qed.

(** X6, witness: the administrator adds a record to the sample data and
    discharges it. *)
Lemma discharge_undoes_create_witness :
  LocalHms.storage
    (LocalPage.deletePatient (Some "administrator") "P00457" true
       (LocalHms.storage
          (LocalHms.handleFormSubmission (Some "administrator") Sample.blank_form None)))
  = Some LocalHms.initialPatients.
Proof.
  apply (discharge_undoes_create (Some "administrator") Sample.blank_form None 456).
  - reflexivity.
  - reflexivity.
  - reflexivity.
  - apply ascending_initialPatients.
  - by vm_compute.
Defined.

(** X7. On the localStorage page, opening a stored record for editing
    and saving the form as it was filled leaves the list unchanged,
    when the identifier is not empty and no two records share an
    identifier: the form is filled from the record, and the record the
    form yields replaces it by itself. *)
Theorem edit_without_change_keeps_records
    (userRole : option string) (patientId : string) (st : LocalHms.Storage)
    (p : LocalHms.Patient) :
  Hms.allows Hms.canEdit userRole = true →
  patientId ≠ "" →
  NoDup (LocalHms.id <$> (LocalHms.loadPatients st).1) →
  ScriptPage.find_patient patientId (LocalHms.loadPatients st).1 = Some p →
  LocalPage.populateFormForEdit userRole patientId st
    = ([], Some (ScriptPage.form_of p), (LocalHms.loadPatients st).2)
  ∧ LocalHms.storage
      (LocalHms.handleFormSubmission userRole (ScriptPage.form_of p)
         (LocalHms.loadPatients st).2)
    = Some (LocalHms.loadPatients st).1.
Proof.
  intros Hedit Hid Hnodup Hfind.
  destruct (find_patient_Some _ _ _ Hfind) as [Hin Hp].
  split.
  - unfold LocalPage.populateFormForEdit. rewrite Hedit. cbn [negb].
    destruct (LocalHms.loadPatients st) as [patients st']. cbn [fst snd] in *.
    by rewrite Hfind.
  - unfold LocalHms.handleFormSubmission.
    cbn [ScriptPage.form_of ScriptJs.patientId]. rewrite Hp.
    apply String.eqb_neq in Hid. rewrite Hid, Hedit. cbn [negb andb].
    pose proof (loadPatients_idem st) as Hidem.
    destruct (LocalHms.loadPatients (LocalHms.loadPatients st).2) as [patients st''].
    cbn in Hidem. subst patients. cbn [LocalHms.storage]. f_equal.
    rewrite <- Hp.
    pose proof (form_of_record p) as Hrec.
    cbn [ScriptPage.form_of ScriptJs.patientId ScriptJs.patientName ScriptJs.patientDOB
         ScriptJs.patientGender ScriptJs.patientAddress ScriptJs.patientWard
         ScriptJs.admissionDate ScriptJs.referringDoctor] in Hrec |- *.
    rewrite Hrec. by apply replace_same.
Qed.

(** X7, witness: the administrator opens ["P00456"] of the sample data
    and saves. *)
Lemma edit_without_change_keeps_records_witness :
  LocalHms.storage
    (LocalHms.handleFormSubmission (Some "administrator")
       (ScriptPage.form_of
          (LocalHms.mkPatient "P00456" "John Smith" "1992-07-15" "male"
             "42 Wallaby Way" "ICU" "2025-12-01" "Dr. Chen"))
       (LocalHms.loadPatients None).2)
  = Some LocalHms.initialPatients.
Proof.
  refine (proj2 (edit_without_change_keeps_records (Some "administrator") "P00456" None
                   _ _ _ _ _)).
  - reflexivity.
  - discriminate.
  - apply (bool_decide_unpack (NoDup (LocalHms.id <$> (LocalHms.loadPatients None).1))).
    vm_compute. exact I.
  - reflexivity.
Defined.

(** X8. The login of the localStorage page succeeds exactly for the
    three pairs of [userRoles]; no other user name, not even a name
    every object inherits, passes. After a success the session holds
    the user name and a role that may view. *)
Theorem login_succeeds_for_listed_accounts {host : Js.Unicode}
    (userId pass : string) (pg : LocalPage.Page) :
  ((LocalPage.login userId pass pg).2 = true
   ↔ (userId = "admin" ∧ pass = "1234")
     ∨ (userId = "doctor" ∧ pass = "pass")
     ∨ (userId = "user" ∧ pass = "view"))
  ∧ (if (LocalPage.login userId pass pg).2
     then LocalPage.hms_user (LocalPage.session (LocalPage.login userId pass pg).1)
          = Some userId
          ∧ Hms.allows Hms.canView
              (LocalPage.getCurrentRole (LocalPage.login userId pass pg).1) = true
     else (LocalPage.login userId pass pg).1 = pg).
Proof.
  unfold LocalPage.login. rewrite userRoles_cases.
  repeat case_decide; subst; cbn [LocalPage.password LocalPage.role].
  1-3: destruct (String.eqb _ pass) eqn:E; cbn;
       [apply String.eqb_eq in E; subst; split; [split; auto|done]
       |apply String.eqb_neq in E; split; [split; [done|]|done];
        intros [[? ?]|[[? ?]|[? ?]]]; congruence].
  cbn. split; [split; [done|]|done].
  intros [[? ?]|[[? ?]|[? ?]]]; congruence.
Qed.

(** ** Searching *)

Section Searching.

Lemma append_cons (c : Ascii.ascii) (a b : string) :
  String c a +:+ b = String c (a +:+ b).
Proof. reflexivity. Qed.

Lemma append_assoc (a b c : string) : (a +:+ b) +:+ c = a +:+ (b +:+ c).
Proof. induction a as [|x a IH]; [done|]. by rewrite !append_cons, IH. Qed.

Lemma prefix_spec (needle hay : string) :
  String.prefix needle hay = true ↔ ∃ post, hay = needle +:+ post.
Proof.
  revert hay. induction needle as [|c needle IH]; intros hay.
  - split; [by exists hay | by destruct hay].
  - destruct hay as [|d hay].
    + split; [done|]. intros [post H]. by rewrite append_cons in H.
    + cbn [String.prefix]. destruct (Ascii.ascii_dec c d) as [->|Hne].
      * rewrite IH. split; intros [post H]; exists post.
        -- by rewrite append_cons, H.
        -- rewrite append_cons in H. congruence.
      * split; [done|]. intros [post H]. rewrite append_cons in H. congruence.
Qed.

Lemma includes_unfold (hay needle : string) :
  Js.includes hay needle =
    if String.prefix needle hay then true
    else match hay with
         | EmptyString => false
         | String _ hay' => Js.includes hay' needle
         end.
Proof. by destruct hay. Qed.

(** [hay.includes(needle)] holds exactly when [needle] occurs in [hay]. *)
Lemma includes_spec (hay needle : string) :
  Js.includes hay needle = true ↔ ∃ pre post, hay = pre +:+ needle +:+ post.
Proof.
  split.
  - induction hay as [|c hay IH]; rewrite includes_unfold;
      destruct (String.prefix needle _) eqn:Hp.
    + apply prefix_spec in Hp as [post ->]. by exists "", post.
    + done.
    + apply prefix_spec in Hp as [post ->]. by exists "", post.
    + intros (pre & post & ->)%IH. by exists (String c pre), post.
  - intros (pre & post & ->). induction pre as [|c pre IH]; rewrite includes_unfold.
    + cbn [String.append]. rewrite (proj2 (prefix_spec needle _)); [done | by exists post].
    + by destruct (String.prefix _ _).
Qed.

Lemma includes_app_l (hay a b : string) :
  Js.includes hay (a +:+ b) = true → Js.includes hay a = true.
Proof.
  rewrite !includes_spec. intros (pre & post & ->).
  exists pre, (b +:+ post). by rewrite append_assoc.
Qed.

Lemma lower_ascii_app (a b : string) :
  Js.lower_ascii (a +:+ b) = Js.lower_ascii a +:+ Js.lower_ascii b.
Proof.
  induction a as [|c a IH]; [done|].
  rewrite append_cons. cbn [Js.lower_ascii]. by rewrite append_cons, IH.
Qed.

Lemma lower_idem (c : Ascii.ascii) : Js.lower (Js.lower c) = Js.lower c.
Proof. by destruct c as [[] [] [] [] [] [] [] []]. Qed.

Lemma lower_ascii_idem (s : string) :
  Js.lower_ascii (Js.lower_ascii s) = Js.lower_ascii s.
Proof. induction s as [|c s IH]; simpl; [done|]. by rewrite lower_idem, IH. Qed.

Lemma lower_is_ascii (c : Ascii.ascii) :
  (Ascii.nat_of_ascii c <? 128)%nat = true →
  (Ascii.nat_of_ascii (Js.lower c) <? 128)%nat = true.
Proof. by destruct c as [[] [] [] [] [] [] [] []]. Qed.

Lemma ascii_only_lower (s : string) :
  Js.ascii_only s = true → Js.ascii_only (Js.lower_ascii s) = true.
Proof.
  induction s as [|c s IH]; [done|]. cbn [Js.ascii_only Js.lower_ascii].
  intros [Hc Hs]%andb_true_iff. by rewrite lower_is_ascii, IH.
Qed.

Lemma ascii_only_app (a b : string) :
  Js.ascii_only a = true → Js.ascii_only b = true → Js.ascii_only (a +:+ b) = true.
Proof.
  intros Ha Hb. induction a as [|c a IH]; [done|].
  rewrite append_cons. cbn [Js.ascii_only] in *.
  apply andb_true_iff in Ha as [Hc Ha]. by rewrite Hc, IH.
Qed.

Context {host : Js.Unicode}.

(** On ASCII text the lower case of a concatenation is the
    concatenation of the lower cases, and lowering twice is lowering
    once. *)
Lemma toLowerCase_app (a b : string) :
  Js.ascii_only a = true → Js.ascii_only b = true →
  Js.toLowerCase (a +:+ b) = Js.toLowerCase a +:+ Js.toLowerCase b.
Proof.
  intros Ha Hb.
  rewrite !Js.toLowerCase_ascii by auto using ascii_only_app.
  apply lower_ascii_app.
Qed.

Lemma toLowerCase_idem (s : string) :
  Js.ascii_only s = true → Js.toLowerCase (Js.toLowerCase s) = Js.toLowerCase s.
Proof.
  intros Hs. rewrite (Js.toLowerCase_ascii s) by done.
  rewrite Js.toLowerCase_ascii by by apply ascii_only_lower.
  apply lower_ascii_idem.
Qed.

Lemma filter_refine {A} (f g : A → bool) (l : list A) :
  (∀ x, f x = true → g x = true) →
  List.filter f l = List.filter f (List.filter g l).
Proof.
  intros Hfg. induction l as [|x l IH]; cbn; [done|].
  destruct (f x) eqn:Hf.
  - rewrite (Hfg x Hf). cbn. by rewrite Hf, IH.
  - destruct (g x); cbn; [by rewrite Hf|done].
Qed.

Lemma filter_sublist {A} (f : A → bool) (l : list A) :
  List.filter f l `sublist_of` l.
Proof.
  induction l as [|x l IH]; cbn; [done|].
  destruct (f x); [by apply sublist_skip | by apply sublist_cons].
Qed.

Lemma local_matches_narrow q x (p : LocalHms.Patient) :
  Js.ascii_only q = true → Js.ascii_only x = true →
  LocalPage.matches (q +:+ x) p = true → LocalPage.matches q p = true.
Proof.
  intros Hq Hx. unfold LocalPage.matches.
  rewrite toLowerCase_app, !orb_true_iff by done.
  intros [H|H]; [left|right]; by apply includes_app_l in H.
Qed.

Lemma dashboard_matches_narrow q x (p : Api.Patient) :
  Js.ascii_only q = true → Js.ascii_only x = true →
  Dashboard.matches (q +:+ x) p = true → Dashboard.matches q p = true.
Proof.
  intros Hq Hx. unfold Dashboard.matches.
  rewrite toLowerCase_app, !orb_true_iff by done.
  destruct (Api.name p), (Api.gender p), (Api.patient_id p);
    intros [[H|H]|H]; try done;
    apply includes_app_l in H; auto.
Qed.

End Searching.

(** X9. The table of the localStorage page: the empty query shows every
    record; for a query in ASCII the case of the query does not matter;
    and extending an ASCII query by ASCII text never shows a row the
    shorter query hid: the rows of [q + x] are rows of [q], in the same
    order. *)
Theorem search_rows_narrow {host : Js.Unicode}
    (pg : LocalPage.Page) (q x : string) :
  fst <$> (LocalPage.renderPatientTable "" pg).1 = LocalPage.patients_of pg
  ∧ (Js.ascii_only q = true →
     (LocalPage.renderPatientTable (Js.toLowerCase q) pg).1
     = (LocalPage.renderPatientTable q pg).1)
  ∧ (Js.ascii_only q = true → Js.ascii_only x = true →
     (LocalPage.renderPatientTable (q +:+ x) pg).1
       `sublist_of` (LocalPage.renderPatientTable q pg).1).
Proof.
  unfold LocalPage.renderPatientTable, LocalPage.patients_of.
  destruct (LocalHms.loadPatients (LocalPage.records pg)) as [patients st]. cbn [fst snd].
  split; [|split].
  - rewrite <- list_fmap_compose. cbn. unfold compose. cbn.
    rewrite list_fmap_id. apply filter_id, Forall_forall. intros p _.
    unfold LocalPage.matches. by rewrite toLowerCase_empty, includes_empty.
  - intros Hq. f_equal. apply filter_ext. intros p. unfold LocalPage.matches.
    by rewrite toLowerCase_idem.
  - intros Hq Hx. apply fmap_sublist.
    rewrite (filter_refine (LocalPage.matches (q +:+ x)) (LocalPage.matches q));
      [apply filter_sublist|].
    intros p. by apply local_matches_narrow.
Qed.

(** X9, witness: the sample data searched for ["Jo"] and ["John"]. *)
Lemma search_rows_narrow_witness :
  (LocalPage.renderPatientTable (host := Js.ascii_host) (Js.lower_ascii "Jo")
     (LocalPage.mkPage (LocalPage.mkSession None None) None)).1
  = (LocalPage.renderPatientTable (host := Js.ascii_host) "Jo"
       (LocalPage.mkPage (LocalPage.mkSession None None) None)).1
  ∧ (LocalPage.renderPatientTable (host := Js.ascii_host) ("Jo" +:+ "hn")
       (LocalPage.mkPage (LocalPage.mkSession None None) None)).1
      `sublist_of`
    (LocalPage.renderPatientTable (host := Js.ascii_host) "Jo"
       (LocalPage.mkPage (LocalPage.mkSession None None) None)).1.
Proof.
  pose proof (search_rows_narrow (host := Js.ascii_host)
                (LocalPage.mkPage (LocalPage.mkSession None None) None) "Jo" "hn")
    as (_ & Hcase & Hnarrow).
  split; [apply Hcase | apply Hnarrow]; reflexivity.
Defined.

(** X10. The search of the dashboard narrows when an ASCII query is
    extended by ASCII text: a record that matches [q + x] matches [q],
    so filtering the rows already shown for [q] gives the rows of
    [q + x], and these are cached records in cache order. *)
Theorem dashboard_search_narrows {host : Js.Unicode}
    (l : list Api.Patient) (q x : string) :
  Js.ascii_only q = true → Js.ascii_only x = true →
  List.filter (Dashboard.matches (q +:+ x)) l
    = List.filter (Dashboard.matches (q +:+ x)) (List.filter (Dashboard.matches q) l)
  ∧ List.filter (Dashboard.matches (q +:+ x)) l
      `sublist_of` List.filter (Dashboard.matches q) l
  ∧ List.filter (Dashboard.matches q) l `sublist_of` l.
Proof.
  intros Hq Hx.
  assert (H : List.filter (Dashboard.matches (q +:+ x)) l
              = List.filter (Dashboard.matches (q +:+ x))
                  (List.filter (Dashboard.matches q) l)).
  { apply filter_refine. intros p. by apply dashboard_matches_narrow. }
  split; [exact H|]. split; [|apply filter_sublist].
  rewrite H. apply filter_sublist.
Qed.

(** X10, witness: two cached records searched for ["a"] and ["an"]. *)
Lemma dashboard_search_narrows_witness :
  List.filter (Dashboard.matches (host := Js.ascii_host) ("a" +:+ "n"))
    [Sample.record 1 "Ann" None None; Sample.record 2 "Bea" None None]
    `sublist_of`
  List.filter (Dashboard.matches (host := Js.ascii_host) "a")
    [Sample.record 1 "Ann" None None; Sample.record 2 "Bea" None None].
Proof.
  apply (dashboard_search_narrows (host := Js.ascii_host)
           [Sample.record 1 "Ann" None None; Sample.record 2 "Bea" None None]
           "a" "n"); reflexivity.
Defined.

(** ** Roles and the handlers of [script.js] *)

(** X11. Which roles pass which check of the HMS pages, for every role
    string or null: only ["administrator"] may edit or discharge,
    ["administrator"] and ["doctor"] may add and see the tab of the
    form, and every role may view except the names an object inherits
    from [Object.prototype]. *)
Theorem checks_by_role (userRole : option string) :
  (Hms.allows Hms.canEdit userRole = true
   ↔ Js.ToPropertyKey userRole = "administrator")
  ∧ (Hms.allows Hms.canDelete userRole = true
     ↔ Js.ToPropertyKey userRole = "administrator")
  ∧ (Hms.allows Hms.canAdd userRole = true
     ↔ Js.ToPropertyKey userRole = "administrator"
       ∨ Js.ToPropertyKey userRole = "doctor")
  ∧ ((ScriptPage.updateUIToReflectRole userRole).1 = true
     ↔ Js.ToPropertyKey userRole = "administrator"
       ∨ Js.ToPropertyKey userRole = "doctor")
  ∧ (Hms.allows Hms.canView userRole = true
     ↔ Js.inherited (Js.ToPropertyKey userRole) = false).
Proof.
  unfold ScriptPage.updateUIToReflectRole, Hms.allows. cbn [fst].
  rewrite getCurrentPermissions_cases. cbn zeta.
  repeat case_decide.
  - match goal with H : _ = "administrator" |- _ => rewrite H end. cbn.
    repeat split; auto.
  - match goal with H : _ = "doctor" |- _ => rewrite H end. cbn.
    repeat split; auto; try done; try (intros [?|?]; done).
  - destruct (Js.inherited _) eqn:E; cbn; repeat split; try done;
      try (intros [?|?]; done).
Qed.

(** X12. [deletePatient] of [script.js] sends nothing unless the role
    has [canDelete] and the user confirms; then it sends one DELETE for
    that identifier, with the role as its body, and after it only the
    GET that reloads the table. *)
Theorem discharge_needs_permission_and_confirmation
    (userRole : option string) (patientId : string) (confirmed : bool)
    (answer : ScriptJs.Answer) :
  (Hms.allows Hms.canDelete userRole && confirmed = false →
   ScriptJs.requests (ScriptPage.deletePatient userRole patientId confirmed answer) = [])
  ∧ (Hms.allows Hms.canDelete userRole && confirmed = true →
     ∃ rest,
       ScriptJs.requests (ScriptPage.deletePatient userRole patientId confirmed answer)
       = Api.mkRequest Api.DELETE ("/api/patients/" +:+ patientId) None
           (Some {[ "role" := ScriptJs.role_json userRole ]}) :: rest
       ∧ Forall Api.reads rest).
Proof.
  unfold ScriptPage.deletePatient.
  destruct (Hms.allows Hms.canDelete userRole), confirmed; cbn [andb negb];
    split; try done; intros _.
  pose proof (fetchAndRenderPatients_reads userRole) as Hget.
  destruct answer as [|[] st [m|]]; cbn; eexists; split; try reflexivity;
    done || constructor.
Qed.

(** X12, witness: an administrator declines the confirmation; then
    confirms, and the server accepts. *)
Lemma discharge_needs_permission_and_confirmation_witness :
  ScriptJs.requests
    (ScriptPage.deletePatient (Some "administrator") "P00123" false
       ScriptJs.Unreachable) = []
  ∧ ∃ rest,
      ScriptJs.requests
        (ScriptPage.deletePatient (Some "administrator") "P00123" true
           (ScriptJs.Answered true "OK" (Some (Some "Patient discharged"))))
      = Api.mkRequest Api.DELETE ("/api/patients/" +:+ "P00123") None
          (Some {[ "role" := ScriptJs.role_json (Some "administrator") ]}) :: rest
      ∧ Forall Api.reads rest.
Proof.
  split.
  - apply (proj1 (discharge_needs_permission_and_confirmation
                    (Some "administrator") "P00123" false ScriptJs.Unreachable)).
    reflexivity.
  - apply (proj2 (discharge_needs_permission_and_confirmation
                    (Some "administrator") "P00123" true
                    (ScriptJs.Answered true "OK" (Some (Some "Patient discharged"))))).
    reflexivity.
Defined.

(** X13. In [script.js], a form filled by [populateFormForEdit] and
    submitted as it is makes an update of the record that was asked
    for: the request is a PUT to that identifier, and its body carries
    the members of the record the list request returned, beside the
    role. *)
Theorem populated_form_updates_same_record
    (userRole : option string) (patientId : string)
    (patients : list LocalHms.Patient) (p : LocalHms.Patient)
    (answer : ScriptJs.Answer) :
  Hms.allows Hms.canEdit userRole = true →
  patientId ≠ "" →
  ScriptPage.find_patient patientId patients = Some p →
  ScriptPage.filled
    (ScriptPage.populateFormForEdit userRole patientId (ScriptPage.ListBody (Some patients)))
  = Some (ScriptPage.form_of p)
  ∧ ∃ body rest,
      ScriptJs.requests
        (ScriptJs.handleFormSubmission userRole (ScriptPage.form_of p) answer)
      = Api.mkRequest Api.PUT ("/api/patients/" +:+ patientId) None (Some body) :: rest
      ∧ body !! "role" = Some (ScriptJs.role_json userRole)
      ∧ body !! "name" = Some (Js.JStr (LocalHms.name p))
      ∧ body !! "dob" = Some (Js.JStr (LocalHms.dob p))
      ∧ body !! "gender" = Some (Js.JStr (LocalHms.gender p))
      ∧ body !! "address" = Some (Js.JStr (LocalHms.address p))
      ∧ body !! "ward" = Some (Js.JStr (LocalHms.ward p))
      ∧ body !! "admissionDate" = Some (Js.JStr (LocalHms.admissionDate p))
      ∧ body !! "doctor" = Some (Js.JStr (LocalHms.doctor p))
      ∧ Forall Api.reads rest.
Proof.
  intros Hedit Hid Hfind.
  destruct (find_patient_Some _ _ _ Hfind) as [_ Hp].
  split.
  - unfold ScriptPage.populateFormForEdit. by rewrite Hedit, Hfind.
  - pose proof (fetchAndRenderPatients_reads userRole) as Hget.
    unfold ScriptJs.handleFormSubmission.
    cbn [ScriptPage.form_of ScriptJs.patientId]. rewrite Hp.
    apply String.eqb_neq in Hid. rewrite Hid, Hedit. cbn [negb andb].
    destruct answer as [|[] st [m|]]; cbn [ScriptJs.requests];
      eexists _, _; (split; [reflexivity|]);
      repeat (split; [reflexivity|]); done || constructor.
Qed.

(** X13, witness: the administrator opens ["P00456"] of a list and
    saves. *)
Lemma populated_form_updates_same_record_witness :
  ScriptPage.filled
    (ScriptPage.populateFormForEdit (Some "administrator") "P00456"
       (ScriptPage.ListBody (Some LocalHms.initialPatients)))
  = Some (ScriptPage.form_of
            (LocalHms.mkPatient "P00456" "John Smith" "1992-07-15" "male"
               "42 Wallaby Way" "ICU" "2025-12-01" "Dr. Chen")).
Proof.
  refine (proj1 (populated_form_updates_same_record (Some "administrator") "P00456"
                   LocalHms.initialPatients _ ScriptJs.Unreachable _ _ _)).
  - reflexivity.
  - discriminate.
  - reflexivity.
Defined.

(** ** The dashboard and its form *)

Section DashboardTraffic.

Import Api.

Lemma fetchPatients_authorized token r d :
  Forall (Wire.authorized token) (Dashboard.fetchPatients token r d).2.
Proof.
  unfold Dashboard.fetchPatients, Api.fetchPatients.
  destruct (negb _); cbn; repeat constructor.
Qed.

Lemma handleDelete_authorized token i confirmed r refetch d :
  Forall (Wire.authorized token)
    (Dashboard.handleDelete token i confirmed r refetch d).1.2.
Proof.
  unfold Dashboard.handleDelete.
  destruct (negb _); cbn; [constructor|].
  destruct confirmed; cbn; [|constructor].
  pose proof (fetchPatients_authorized token refetch d) as Hget.
  destruct (Dashboard.fetchPatients token refetch d) as [d' sent'].
  destruct r as [|error|payload]; cbn in *; repeat constructor; done.
Qed.

Lemma handleModalSubmit_authorized token data r refetch d :
  Forall (Wire.authorized token)
    (Dashboard.handleModalSubmit token data r refetch d).1.2.
Proof.
  unfold Dashboard.handleModalSubmit.
  destruct (negb _); cbn; [constructor|].
  pose proof (fetchPatients_authorized token refetch d) as Hget.
  destruct (Dashboard.fetchPatients token refetch d) as [d' sent'].
  destruct (Dashboard.isUpdate d); cbn;
    destruct (settle _ r); cbn in *; repeat constructor; done.
Qed.

Lemma handleDelete_modal token i confirmed r refetch d :
  Dashboard.editingPatient (Dashboard.handleDelete token i confirmed r refetch d).1.1
  = Dashboard.editingPatient d.
Proof.
  unfold Dashboard.handleDelete.
  destruct (negb _); cbn; [done|].
  destruct confirmed; cbn; [|done].
  pose proof (fetchPatients_modal token refetch d) as [_ Hed].
  destruct (Dashboard.fetchPatients token refetch d) as [d' sent'].
  destruct r as [|error|payload]; cbn in *; done.
Qed.

Lemma dom_INITIAL_FORM : dom PatientModal.INITIAL_FORM = Wire.form_members.
Proof.
  unfold PatientModal.INITIAL_FORM, Wire.form_members.
  rewrite dom_list_to_map_L. cbn. set_solver.
Qed.

Lemma field_name_member (f : PatientModal.Field) :
  PatientModal.field_name f ∈ Wire.form_members.
Proof. unfold Wire.form_members. destruct f; cbn; set_solver. Qed.

Lemma handleChange_dom f v (m : gmap string Js.json) :
  dom m = Wire.form_members → dom (PatientModal.handleChange f v m) = Wire.form_members.
Proof.
  intros Hm. unfold PatientModal.handleChange. rewrite dom_insert_L, Hm.
  pose proof (field_name_member f). set_solver.
Qed.

Section Runs.

Context {host : Js.Unicode}.
Variable user : option User.
Variable token : option string.

Lemma step_authorized s sent s' :
  Ui.step user token s sent s' → Forall (Wire.authorized token) sent.
Proof.
  intros Hstep.
  destruct Hstep as
    [s r d sent E | s q | s _ | s p _ _
    | s p confirmed r refetch d sent alerted _ _ E
    | s field value _ | s r refetch d sent thrown _ E | s _]; try constructor.
  - pose proof (fetchPatients_authorized token r (Ui.page s)) as H. by rewrite E in H.
  - pose proof (handleDelete_authorized token (patient_id p) confirmed r refetch
                  (Ui.page s)) as H.
    by rewrite E in H.
  - pose proof (handleModalSubmit_authorized token (Ui.formData s) r refetch (Ui.page s))
      as H.
    by rewrite E in H.
Qed.

Lemma run_authorized s0 sent s :
  Ui.run user token s0 sent s → Forall (Wire.authorized token) sent.
Proof.
  induction 1 as [|s0 sent s' sent' s'' _ IH Hstep]; [constructor|].
  apply Forall_app. split; [done|]. by apply (step_authorized s' sent' s'').
Qed.

Lemma step_create_form s sent s' :
  Wire.create_form s → Ui.step user token s sent s' → Wire.create_form s'.
Proof.
  unfold Wire.create_form. intros Hs Hstep.
  destruct Hstep as
    [s r d sent E | s q | s _ | s p _ _
    | s p confirmed r refetch d sent alerted _ _ E
    | s field value _ | s r refetch d sent thrown _ E | s _];
    unfold Ui.sync; cbn [Ui.formData Ui.page].
  - pose proof (fetchPatients_modal token r (Ui.page s)) as [_ H].
    rewrite E in H. cbn in H. rewrite H. exact Hs.
  - exact Hs.
  - intros _. apply dom_INITIAL_FORM.
  - discriminate.
  - pose proof (handleDelete_modal token (patient_id p) confirmed r refetch (Ui.page s))
      as H.
    rewrite E in H. cbn in H. rewrite H. exact Hs.
  - intros H. by apply handleChange_dom, Hs.
  - pose proof (handleModalSubmit_modal token (Ui.formData s) r refetch (Ui.page s)) as H.
    rewrite E in H. cbn in H.
    destruct thrown; cbn [Ui.formData Ui.page Dashboard.editingPatient
                          Dashboard.setIsModalOpen].
    + rewrite H. exact Hs.
    + rewrite H. intros ->. apply dom_INITIAL_FORM.
  - cbn. intros ->. apply dom_INITIAL_FORM.
Qed.

Lemma run_create_form s0 sent s :
  Wire.create_form s0 → Ui.run user token s0 sent s → Wire.create_form s.
Proof.
  intros H0. induction 1 as [|s0 sent s' sent' s'' _ IH Hstep]; [exact H0|].
  exact (step_create_form s' sent' s'' (IH H0) Hstep).
Qed.

End Runs.

End DashboardTraffic.

(** X14. Every request the dashboard sends, in any run of the page,
    carries the bearer header made from the token of the session. *)
Theorem every_request_carries_the_token {host : Js.Unicode}
    (user : option Api.User) (token : option string)
    (sent : list Api.Request) (s : Ui.State) :
  Ui.run user token Ui.initial sent s →
  Forall (Wire.authorized token) sent.
Proof. apply run_authorized. Qed.

(** X14, witness: a doctor opens the form and saves it while the store
    is out of reach. *)
Lemma every_request_carries_the_token_witness :
  Forall (Wire.authorized (Some "t"))
    (([] ++ []) ++
     [Api.mkRequest Api.POST "http://localhost:5000/api/patients/" (Some "Bearer t")
        (Some PatientModal.INITIAL_FORM)])%list.
Proof.
  eapply (every_request_carries_the_token (host := Js.ascii_host)
            (Some Sample.doctor) (Some "t")).
  eapply Ui.run_step.
  - eapply Ui.run_step; [apply Ui.run_nil|].
    apply Ui.step_add. reflexivity.
  - eapply (Ui.step_submit _ _ _ Api.NetworkFailure Api.NetworkFailure); reflexivity.
Defined.

(** X15. A save that fails leaves the page as it was: one request was
    sent and none to reload the list, the cells of the dashboard are
    unchanged, and the form stays open with the data typed so far and
    the message of the failure. *)
Theorem failed_save_keeps_form {host : Js.Unicode}
    (user : option Api.User) (token : option string) (s : Ui.State)
    (r : Api.FetchResult Api.Patient)
    (refetch : Api.FetchResult (option (list Api.Patient)))
    (d : Dashboard.State) (sent : list Api.Request) (e : Api.Exception) :
  Dashboard.isModalOpen (Ui.page s) = true →
  Dashboard.handleModalSubmit token (Ui.formData s) r refetch (Ui.page s)
    = (d, sent, Some e) →
  d = Ui.page s
  ∧ length sent = 1
  ∧ Ui.step user token s sent
      (Ui.mkState (Ui.page s) (Ui.formData s)
         "Failed to save patient. Please check inputs.").
Proof.
  intros Hopen Hsubmit.
  assert (Hd : d = Ui.page s ∧ length sent = 1).
  { revert Hsubmit. unfold Dashboard.handleModalSubmit.
    destruct (negb _); [discriminate|].
    destruct (Dashboard.fetchPatients token refetch (Ui.page s)) as [d' sent'].
    destruct (Dashboard.isUpdate (Ui.page s)); cbn;
      destruct (Api.settle _ r); cbn; intros [= <- <- <-]; done. }
  destruct Hd as [-> Hlen]. repeat split; [done|].
  exact (Ui.step_submit user token s r refetch (Ui.page s) sent (Some e) Hopen Hsubmit).
Qed.

(** X15, witness: the store rejects a new record. *)
Lemma failed_save_keeps_form_witness :
  length
    [Api.mkRequest Api.POST "http://localhost:5000/api/patients/" (Some "Bearer t")
       (Some PatientModal.INITIAL_FORM)] = 1.
Proof.
  refine (proj1 (proj2 (failed_save_keeps_form (host := Js.ascii_host)
            (Some Sample.doctor) (Some "t")
            (Ui.sync (Dashboard.handleAdd Dashboard.initial))
            (Api.Rejected (Some "age is required")) Api.NetworkFailure
            (Dashboard.handleAdd Dashboard.initial) _
            (Api.Error "age is required") _ _))).
  - reflexivity.
  - reflexivity.
Defined.

(** X16. Saving the form opened on a cached record sends the members of
    that record without [id]: as a PUT to the identifier of the record
    when it has one, as a POST, a new record, when it has none. *)
Theorem edited_record_is_sent_without_id
    (token : option string) (p : Api.Patient) (d0 : Dashboard.State)
    (r : Api.FetchResult Api.Patient)
    (refetch : Api.FetchResult (option (list Api.Patient))) :
  Js.truthy_string token = true →
  ∃ rest,
    (Dashboard.handleModalSubmit token
       (Ui.formData (Ui.sync (Dashboard.handleEdit p d0))) r refetch
       (Ui.page (Ui.sync (Dashboard.handleEdit p d0)))).1.2
    = match Api.patient_id p with
      | Some i =>
          Api.mkRequest Api.PUT ("http://localhost:5000/api/patients/" +:+ pretty i)
            (Api.bearer token) (Some (delete "id" (PatientModal.Patient_object p)))
      | None =>
          Api.mkRequest Api.POST "http://localhost:5000/api/patients/"
            (Api.bearer token) (Some (delete "id" (PatientModal.Patient_object p)))
      end :: rest
    ∧ Forall Api.reads rest.
Proof.
  intros Htoken. unfold Dashboard.handleModalSubmit. rewrite Htoken. cbn [negb].
  pose proof (fetchPatients_reads token refetch
                (Ui.page (Ui.sync (Dashboard.handleEdit p d0)))) as Hget.
  destruct (Dashboard.fetchPatients token refetch _) as [d' sent'].
  unfold Dashboard.isUpdate. cbn [Ui.sync Ui.page Ui.formData Dashboard.handleEdit
    Dashboard.editingPatient Dashboard.setIsModalOpen Dashboard.setEditingPatient
    PatientModal.resetForm mbind option_bind].
  destruct (Api.patient_id p) as [i|]; cbn;
    destruct (Api.settle _ r); cbn in *; eexists; split; try reflexivity;
    done || constructor.
Qed.

(** X16, witness: a record of the store, opened and saved while the
    store is out of reach. *)
Lemma edited_record_is_sent_without_id_witness :
  ∃ rest,
    (Dashboard.handleModalSubmit (Some "t")
       (Ui.formData
          (Ui.sync (Dashboard.handleEdit (Sample.record 2 "Jane Doe" None None)
                      Dashboard.initial)))
       Api.NetworkFailure Api.NetworkFailure
       (Ui.page
          (Ui.sync (Dashboard.handleEdit (Sample.record 2 "Jane Doe" None None)
                      Dashboard.initial)))).1.2
    = Api.mkRequest Api.PUT ("http://localhost:5000/api/patients/" +:+ pretty 2%Z)
        (Api.bearer (Some "t"))
        (Some (delete "id"
                 (PatientModal.Patient_object (Sample.record 2 "Jane Doe" None None))))
      :: rest
    ∧ Forall Api.reads rest.
Proof.
  apply (edited_record_is_sent_without_id (Some "t")
           (Sample.record 2 "Jane Doe" None None) Dashboard.initial).
  reflexivity.
Defined.

(** X17. While a new record is being entered (no record is open for
    editing), the data of the form have exactly the twelve members of
    [INITIAL_FORM], whatever was typed, opened or closed before; these
    are the members a create request carries. *)
Theorem create_form_has_initial_members {host : Js.Unicode}
    (user : option Api.User) (token : option string)
    (sent : list Api.Request) (s : Ui.State) :
  Ui.run user token Ui.initial sent s →
  Dashboard.editingPatient (Ui.page s) = None →
  dom (Ui.formData s) = Wire.form_members.
Proof.
  intros Hrun. apply (run_create_form user token Ui.initial sent s); [|done].
  intros _. apply dom_INITIAL_FORM.
Qed.

(** X17, witness: a doctor opens the form for a new record. *)
Lemma create_form_has_initial_members_witness :
  dom (Ui.formData (Ui.sync (Dashboard.handleAdd Dashboard.initial)))
  = Wire.form_members.
Proof.
  apply (create_form_has_initial_members (host := Js.ascii_host)
           (Some Sample.doctor) (Some "t") ([] ++ [])).
  - eapply Ui.run_step; [apply Ui.run_nil|]. apply Ui.step_add. reflexivity.
  - reflexivity.
Defined.

Section Statistics.

Import Api.

Lemma count_inclusion_exclusion (f g : Patient → bool) (l : list Patient) :
  Dashboard.count f l + Dashboard.count g l
  = Dashboard.count (λ p, f p || g p) l + Dashboard.count (λ p, f p && g p) l.
Proof.
  unfold Dashboard.count. induction l as [|p l IH]; cbn; [done|].
  destruct (f p), (g p); cbn; lia.
Qed.

Lemma count_all (f : Patient → bool) (l : list Patient) :
  Forall (λ p, f p = true) l → Dashboard.count f l = length l.
Proof. intros H. unfold Dashboard.count. by rewrite filter_all. Qed.

End Statistics.

(** X18. The two bars of the gender chart count disjoint sets of
    records: together with the records that are neither ['Male'] nor
    ['Female'] they add up to the number of cached records. *)
Theorem gender_bars_partition (l : list Api.Patient) :
  (Dashboard.genderStats l).1 + (Dashboard.genderStats l).2
  + Dashboard.count Wire.other_gender l
  = length l.
Proof.
  unfold Dashboard.genderStats, Dashboard.count, Wire.other_gender. cbn [fst snd].
  induction l as [|p l IH]; cbn; [done|].
  repeat case_bool_decide; cbn; try lia. congruence.
Qed.

(** X19. When [stroke] is 0 or 1 on every cached record, every record
    falls in a slice of the stroke chart, and the two slices add up to
    the number of records plus the records that fall in both; a record
    falls in both exactly when its [stroke] is 1 and its
    [stroke_prediction] is 0 or falsy, or its [stroke] is 0 and its
    [stroke_prediction] is 1. *)
Theorem stroke_slices_cover (l : list Api.Patient) :
  Forall (λ p, Wire.stroke_declared p = true) l →
  (Dashboard.strokeStats l).1 + (Dashboard.strokeStats l).2
  = length l + Dashboard.count Wire.in_both_slices l
  ∧ Forall (λ p, Dashboard.in_stroke_slice p || Dashboard.in_no_stroke_slice p = true) l
  ∧ Forall (λ p, Wire.in_both_slices p
                 = (Js.strict_eq (Api.stroke p) 1
                    && (Js.strict_eq (Api.stroke_prediction p) 0
                        || negb (Js.truthy_number (Api.stroke_prediction p))))
                   || (Js.strict_eq (Api.stroke p) 0
                       && Js.strict_eq (Api.stroke_prediction p) 1)) l.
Proof.
  intros Hl.
  assert (Hcover : Forall (λ p, Dashboard.in_stroke_slice p
                                || Dashboard.in_no_stroke_slice p = true) l).
  { eapply Forall_impl; [exact Hl|].
    intros p. unfold Wire.stroke_declared, Dashboard.in_stroke_slice,
      Dashboard.in_no_stroke_slice.
    destruct (Js.strict_eq (Api.stroke p) 0), (Js.strict_eq (Api.stroke p) 1); cbn;
      rewrite ?orb_true_r; done. }
  split; [|split; [exact Hcover|]].
  - unfold Dashboard.strokeStats. cbn [fst snd].
    rewrite count_inclusion_exclusion. f_equal. by apply count_all.
  - eapply Forall_impl; [exact Hl|].
    intros p. unfold Wire.stroke_declared, Wire.in_both_slices,
      Dashboard.in_stroke_slice, Dashboard.in_no_stroke_slice.
    destruct (Api.stroke p) as [[q| |sg]|]; cbn; try done.
    repeat case_bool_decide; subst; cbn; try done;
      rewrite ?orb_true_r, ?orb_false_r, ?andb_true_r; done.
Qed.

(** X19, witness: a prior stroke without a prediction, counted in both
    slices. *)
Lemma stroke_slices_cover_witness :
  (Dashboard.strokeStats [Sample.record 1 "A" (Some (Js.of_Z 1)) None]).1
  + (Dashboard.strokeStats [Sample.record 1 "A" (Some (Js.of_Z 1)) None]).2
  = length [Sample.record 1 "A" (Some (Js.of_Z 1)) None]
    + Dashboard.count Wire.in_both_slices [Sample.record 1 "A" (Some (Js.of_Z 1)) None].
Proof.
  apply stroke_slices_cover. repeat constructor.
Defined.

(** X20. Whatever the cache, neither mean of the header is NaN when the
    glucose level and the age of every record are finite: the divisor
    is never zero, so [0 / 0] does not arise; a sum that overflows
    shows as an infinity. *)
Theorem header_means_are_never_NaN (l : list Api.Patient) :
  Forall (λ p, Wire.finite (Api.avg_glucose_level p) ∧ Wire.finite (Api.age p)) l →
  Dashboard.avgGlucoseLevel (Dashboard.header l) ≠ Js.NaN
  ∧ Dashboard.avgAge (Dashboard.header l) ≠ Js.NaN.
Proof.
  intros Hl. split; apply mean_not_NaN; eapply Forall_impl; try exact Hl;
    intros p [? ?]; done.
Qed.

(** X20, witness: a cache of two records. *)
Lemma header_means_are_never_NaN_witness :
  Dashboard.avgGlucoseLevel
    (Dashboard.header [Sample.record 1 "A" None None; Sample.record 2 "B" None None])
  ≠ Js.NaN
  ∧ Dashboard.avgAge
      (Dashboard.header [Sample.record 1 "A" None None; Sample.record 2 "B" None None])
    ≠ Js.NaN.
Proof.
  apply header_means_are_never_NaN.
  repeat constructor; eexists; reflexivity.
Defined.

(** X21. [handleDelete] of the dashboard does nothing without a token
    or without the confirmation, and otherwise changes the cache only
    through the reload that follows a successful DELETE: if the cache
    differs afterwards, the DELETE was accepted and the cache is the
    list the reload returned. *)
Theorem cache_changes_only_after_discharge
    (token : option string) (i : option Z) (confirmed : bool)
    (r : Api.FetchResult unit)
    (refetch : Api.FetchResult (option (list Api.Patient)))
    (s : Dashboard.State) :
  (Js.truthy_string token && confirmed = false →
   Dashboard.handleDelete token i confirmed r refetch s = (s, [], false))
  ∧ (Dashboard.patients (Dashboard.handleDelete token i confirmed r refetch s).1.1
     ≠ Dashboard.patients s →
     (∃ ack, r = Api.Accepted ack)
     ∧ refetch = Api.Accepted
         (Some (Some (Dashboard.patients
                        (Dashboard.handleDelete token i confirmed r refetch s).1.1)))).
Proof.
  unfold Dashboard.handleDelete.
  destruct (Js.truthy_string token) eqn:Htoken, confirmed; cbn [negb andb];
    split; try done.
  unfold Dashboard.fetchPatients, Api.fetchPatients. rewrite Htoken. cbn [negb].
  destruct r as [|error|ack]; cbn; try done.
  destruct refetch as [|error|[[data|]|]]; cbn; try done.
  intros _. split; [by eexists | done].
Qed.

(** X21, witness: the user declines; then confirms, and the store
    accepts and returns the remaining record. *)
Lemma cache_changes_only_after_discharge_witness :
  Dashboard.handleDelete (Some "t") (Some 1%Z) false Api.NetworkFailure Api.NetworkFailure
    (Dashboard.mkState [Sample.record 1 "A" None None; Sample.record 2 "B" None None]
       false "" false None "")
  = (Dashboard.mkState [Sample.record 1 "A" None None; Sample.record 2 "B" None None]
       false "" false None "", [], false)
  ∧ ((∃ ack, Api.Accepted (Some ()) = Api.Accepted ack)
     ∧ Api.Accepted (Some (Some [Sample.record 2 "B" None None]))
       = Api.Accepted
           (Some (Some (Dashboard.patients
              (Dashboard.handleDelete (Some "t") (Some 1%Z) true (Api.Accepted (Some ()))
                 (Api.Accepted (Some (Some [Sample.record 2 "B" None None])))
                 (Dashboard.mkState
                    [Sample.record 1 "A" None None; Sample.record 2 "B" None None]
                    false "" false None "")).1.1)))).
Proof.
  split.
  - apply (proj1 (cache_changes_only_after_discharge (Some "t") (Some 1%Z) false
                    Api.NetworkFailure Api.NetworkFailure _)).
    reflexivity.
  - apply (proj2 (cache_changes_only_after_discharge (Some "t") (Some 1%Z) true
                    (Api.Accepted (Some ()))
                    (Api.Accepted (Some (Some [Sample.record 2 "B" None None])))
                    (Dashboard.mkState
                       [Sample.record 1 "A" None None; Sample.record 2 "B" None None]
                       false "" false None ""))).
    cbn. intros H. by apply (f_equal length) in H.
Defined.

(** ** The session across failures, reloads and the router *)

Section SessionTraces.

Import Api AuthContext.

Lemma fails_settle (r : FetchResult AuthResponse) (fallback : string) :
  AuthTrace.fails r → ∃ e, settle fallback r = Thrown e.
Proof. destruct r as [|error|[res|]]; cbn; [eauto..|done|eauto]. Qed.

Lemma failed_attempt (r : FetchResult AuthResponse) (fallback : string) (w : World) :
  AuthTrace.fails r →
  settled (settle fallback r) (setIsLoading true w)
  = mkWorld (mkState (user (mem w)) (token (mem w)) false) (disk w).
Proof. intros [e ->]%(fails_settle r fallback). reflexivity. Qed.

(** The identity and the token of [res] are in memory and in storage. *)
Lemma signed_in_step (res : AuthResponse) (w : World) (e : AuthTrace.Event) :
  AuthTrace.idle e →
  user (mem w) = User_json (Api.user res) →
  token (mem w) = Some (Api.token res) →
  disk w = mkStorage (Some (Api.token res)) (Some (JSON_stringify (Api.user res))) →
  ∃ w', AuthTrace.step w e = Some w'
        ∧ user (mem w') = User_json (Api.user res)
        ∧ token (mem w') = Some (Api.token res)
        ∧ disk w' = mkStorage (Some (Api.token res))
                              (Some (JSON_stringify (Api.user res))).
Proof.
  intros He Hu Ht Hd. destruct e as [| |r|r|]; cbn [AuthTrace.step AuthTrace.idle] in *.
  - rewrite Hd. cbn. eexists. split; [reflexivity|]. by cbn.
  - eexists. split; [reflexivity|]. by cbn.
  - eexists. split; [reflexivity|]. unfold login, loginUser.
    rewrite failed_attempt by done. by cbn.
  - eexists. split; [reflexivity|]. unfold register, registerUser.
    rewrite failed_attempt by done. by cbn.
  - done.
Qed.

Lemma signed_out_step (w : World) (e : AuthTrace.Event) :
  AuthTrace.signs_nobody_in e →
  user (mem w) = Js.JNull → token (mem w) = None → disk w = fresh_storage →
  ∃ w', AuthTrace.step w e = Some w'
        ∧ user (mem w') = Js.JNull ∧ token (mem w') = None
        ∧ disk w' = fresh_storage.
Proof.
  intros He Hu Ht Hd.
  destruct e as [| |r|r|]; cbn [AuthTrace.step AuthTrace.signs_nobody_in] in *.
  - rewrite Hd. cbn. eexists. split; [reflexivity|]. by cbn.
  - eexists. split; [reflexivity|]. by cbn.
  - eexists. split; [reflexivity|]. unfold login, loginUser.
    rewrite failed_attempt by done. by cbn.
  - eexists. split; [reflexivity|]. unfold register, registerUser.
    rewrite failed_attempt by done. by cbn.
  - eexists. split; [reflexivity|]. by cbn.
Qed.

End SessionTraces.

(** X22. A session that signed in stays signed in: after a login that
    succeeds with a token that is not empty, any sequence of reloads,
    pending renders and logins or registrations that fail leaves the
    same identity and token in memory and in storage, the provider
    never throws while mounting, and the session is authenticated. *)
Theorem signed_in_session_persists
    (res : Api.AuthResponse) (w : AuthContext.World) (es : list AuthTrace.Event) :
  Api.token res ≠ "" →
  Forall AuthTrace.idle es →
  ∃ w',
    AuthTrace.run (AuthContext.login (Api.Accepted (Some res)) w) es = Some w'
    ∧ AuthContext.user (AuthContext.mem w') = AuthContext.User_json (Api.user res)
    ∧ AuthContext.token (AuthContext.mem w') = Some (Api.token res)
    ∧ AuthContext.disk w' = AuthContext.disk (AuthContext.login (Api.Accepted (Some res)) w)
    ∧ AuthContext.isAuthenticated (AuthContext.mem w') = true.
Proof.
  intros Hne Hes.
  assert (Hgen : ∀ w0,
    AuthContext.user (AuthContext.mem w0) = AuthContext.User_json (Api.user res) →
    AuthContext.token (AuthContext.mem w0) = Some (Api.token res) →
    AuthContext.disk w0
    = AuthContext.mkStorage (Some (Api.token res))
        (Some (AuthContext.JSON_stringify (Api.user res))) →
    ∃ w', AuthTrace.run w0 es = Some w'
          ∧ AuthContext.user (AuthContext.mem w') = AuthContext.User_json (Api.user res)
          ∧ AuthContext.token (AuthContext.mem w') = Some (Api.token res)
          ∧ AuthContext.disk w'
            = AuthContext.mkStorage (Some (Api.token res))
                (Some (AuthContext.JSON_stringify (Api.user res)))).
  { induction Hes as [|e es He _ IH]; intros w0 Hu Ht Hd.
    - by exists w0.
    - destruct (signed_in_step res w0 e He Hu Ht Hd) as (w1 & Hstep & Hu1 & Ht1 & Hd1).
      cbn [AuthTrace.run]. rewrite Hstep. by apply IH. }
  destruct (Hgen (AuthContext.login (Api.Accepted (Some res)) w)) as (w' & Hrun & Hu & Ht & Hd);
    [reflexivity..|].
  exists w'. repeat split; try done.
  unfold AuthContext.isAuthenticated. rewrite Hu, Ht.
  by rewrite (truthy_nonempty _ Hne).
Qed.

(** X22, witness: the sample viewer signs in, reloads, and mistypes a
    password. *)
Lemma signed_in_session_persists_witness :
  ∃ w',
    AuthTrace.run
      (AuthContext.login (Api.Accepted (Some (Api.mkAuthResponse "jwt" Sample.viewer)))
         (AuthContext.mkWorld (AuthContext.mkState Js.JNull None false)
            AuthContext.fresh_storage))
      [AuthTrace.Reload; AuthTrace.Pending;
       AuthTrace.LoginSettled (Api.Rejected (Some "Invalid credentials"))]
    = Some w'
    ∧ AuthContext.user (AuthContext.mem w') = AuthContext.User_json Sample.viewer
    ∧ AuthContext.token (AuthContext.mem w') = Some "jwt"
    ∧ AuthContext.disk w'
      = AuthContext.disk
          (AuthContext.login
             (Api.Accepted (Some (Api.mkAuthResponse "jwt" Sample.viewer)))
             (AuthContext.mkWorld (AuthContext.mkState Js.JNull None false)
                AuthContext.fresh_storage))
    ∧ AuthContext.isAuthenticated (AuthContext.mem w') = true.
Proof.
  apply (signed_in_session_persists (Api.mkAuthResponse "jwt" Sample.viewer)).
  - discriminate.
  - repeat constructor.
Defined.

(** X23. A session that signed out stays signed out: after [logout],
    whatever the session was, any sequence of reloads, pending
    renders, further logouts and logins or registrations that fail
    leaves no identity, no token and no stored entry, and the private
    route never shows its children. *)
Theorem signed_out_session_stays_out
    (w : AuthContext.World) (es : list AuthTrace.Event) :
  Forall AuthTrace.signs_nobody_in es →
  ∃ w',
    AuthTrace.run (AuthContext.logout w) es = Some w'
    ∧ AuthContext.user (AuthContext.mem w') = Js.JNull
    ∧ AuthContext.token (AuthContext.mem w') = None
    ∧ AuthContext.disk w' = AuthContext.fresh_storage
    ∧ App.PrivateRoute (AuthContext.mem w') ≠ App.Children.
Proof.
  intros Hes.
  assert (Hgen : ∀ w0,
    AuthContext.user (AuthContext.mem w0) = Js.JNull →
    AuthContext.token (AuthContext.mem w0) = None →
    AuthContext.disk w0 = AuthContext.fresh_storage →
    ∃ w', AuthTrace.run w0 es = Some w'
          ∧ AuthContext.user (AuthContext.mem w') = Js.JNull
          ∧ AuthContext.token (AuthContext.mem w') = None
          ∧ AuthContext.disk w' = AuthContext.fresh_storage).
  { induction Hes as [|e es He _ IH]; intros w0 Hu Ht Hd.
    - by exists w0.
    - destruct (signed_out_step w0 e He Hu Ht Hd) as (w1 & Hstep & Hu1 & Ht1 & Hd1).
      cbn [AuthTrace.run]. rewrite Hstep. by apply IH. }
  destruct (Hgen (AuthContext.logout w)) as (w' & Hrun & Hu & Ht & Hd); [reflexivity..|].
  exists w'. repeat split; try done.
  unfold App.PrivateRoute, AuthContext.isAuthenticated. rewrite Ht. cbn.
  by destruct (AuthContext.isLoading _).
Qed.

(** X23, witness: the sample viewer signs out, reloads, and mistypes a
    password. *)
Lemma signed_out_session_stays_out_witness :
  ∃ w',
    AuthTrace.run
      (AuthContext.logout
         (AuthContext.mkWorld
            (AuthContext.mkState (AuthContext.User_json Sample.viewer) (Some "jwt") false)
            (AuthContext.mkStorage (Some "jwt")
               (Some (AuthContext.JSON_stringify Sample.viewer)))))
      [AuthTrace.Reload; AuthTrace.LoginSettled Api.NetworkFailure; AuthTrace.LoggedOut]
    = Some w'
    ∧ AuthContext.user (AuthContext.mem w') = Js.JNull
    ∧ AuthContext.token (AuthContext.mem w') = None
    ∧ AuthContext.disk w' = AuthContext.fresh_storage
    ∧ App.PrivateRoute (AuthContext.mem w') ≠ App.Children.
Proof.
  apply signed_out_session_stays_out.
  repeat constructor.
Defined.

(** X24. Where the private route shows the dashboard, the session has
    a token that is not empty, so the first load of the records sends
    its GET with that token: the branch "No authentication token found"
    is not taken. *)
Theorem dashboard_loads_with_token
    (s : AuthContext.State) (r : Api.FetchResult (option (list Api.Patient)))
    (d : Dashboard.State) :
  App.PrivateRoute s = App.Children →
  ∃ t, AuthContext.token s = Some t
       ∧ t ≠ ""
       ∧ (Dashboard.fetchPatients (AuthContext.token s) r d).2
         = [Api.mkRequest Api.GET "http://localhost:5000/api/patients/"
              (Some ("Bearer " +:+ t)) None]
       ∧ Dashboard.error (Dashboard.fetchPatients (AuthContext.token s) r d).1
         ≠ "No authentication token found".
Proof.
  unfold App.PrivateRoute, AuthContext.isAuthenticated.
  destruct (AuthContext.isLoading s); [discriminate|].
  destruct (AuthContext.token s) as [t|] eqn:Ht; cbn; [|discriminate].
  destruct (String.eqb t "") eqn:Hne; cbn; [discriminate|].
  destruct (Js.truthy (AuthContext.user s)); [|discriminate]. intros _.
  exists t. split; [done|]. split; [by apply String.eqb_neq|].
  unfold Dashboard.fetchPatients, Api.fetchPatients. cbn. rewrite Hne. cbn.
  split; [reflexivity|].
  destruct (Api.settle _ r) as [[data|]|e]; cbn; discriminate.
Qed.

(** X24, witness: the session of the sample viewer. *)
Lemma dashboard_loads_with_token_witness :
  ∃ t, Some "jwt" = Some t
       ∧ t ≠ ""
       ∧ (Dashboard.fetchPatients (Some "jwt") Api.NetworkFailure Dashboard.initial).2
         = [Api.mkRequest Api.GET "http://localhost:5000/api/patients/"
              (Some ("Bearer " +:+ t)) None]
       ∧ Dashboard.error
           (Dashboard.fetchPatients (Some "jwt") Api.NetworkFailure Dashboard.initial).1
         ≠ "No authentication token found".
Proof.
  apply (dashboard_loads_with_token
           (AuthContext.mkState (AuthContext.User_json Sample.viewer) (Some "jwt") false)).
  reflexivity.
Defined.

(** ** Buttons and handlers of the localStorage page *)

(** X25. A row of the table offers a button exactly when the handler
    behind it accepts the role: "View/Edit" when [populateFormForEdit]
    does not deny, "Discharge" when a confirmed [deletePatient]
    discharges, and "No Actions" when both would deny. *)
Theorem buttons_match_handlers (userRole : option string) :
  (LocalPage.ViewEdit ∈ LocalPage.actionButtons userRole
   ↔ ∀ i st, (LocalPage.populateFormForEdit userRole i st).1.1 = [])
  ∧ (LocalPage.Discharge ∈ LocalPage.actionButtons userRole
     ↔ ∀ i st, LocalHms.alerts (LocalPage.deletePatient userRole i true st)
               = ["Patient " +:+ i +:+ " discharged."])
  ∧ (LocalPage.NoActions ∈ LocalPage.actionButtons userRole
     ↔ (∀ i st, (LocalPage.populateFormForEdit userRole i st).1.1
                = ["Permission Denied: You cannot open the form for editing."])
       ∧ ∀ i st, LocalHms.alerts (LocalPage.deletePatient userRole i true st)
                 = ["Permission Denied: You cannot discharge/delete records."]).
Proof.
  unfold LocalPage.actionButtons, LocalPage.populateFormForEdit, LocalPage.deletePatient.
  destruct (Hms.allows Hms.canEdit userRole), (Hms.allows Hms.canDelete userRole);
    cbn [negb andb app].
  all: repeat split.
  all: try (intros _ i st; by destruct (LocalHms.loadPatients st)).
  all: try (intros H; specialize (H "" None); vm_compute in H; discriminate).
  all: try (intros [H1 H2]; first [specialize (H1 "" None); vm_compute in H1; discriminate
                                  | specialize (H2 "" None); vm_compute in H2; discriminate]).
  all: try (intros; set_solver).
Qed.
